(** * Review service of fastapi-shop: a shallow embedding of
    [app/routers/reviews.py] and the properties of its four handlers.

    The two tables the router touches are finite maps from the primary key
    to the columns of the row; a mapped object (what a query yields) is the
    pair of the key and the columns.  A handler is a computation in a small
    state-and-exception monad over the store: it either returns a value or
    raises, and in both cases leaves a store behind.

    A rating is a float: a binary number with a significand of 53 bits.
    The average the database returns is the exact quotient of the sum by
    the count rounded to such a number, and the specification's mean is
    stated on its own terms, as a float nearest to the exact mean. *)

From stdpp Require Import gmap strings list sorting.
From Stdlib Require Import QArith Qabs Qpower Lqa.

Local Open Scope Z_scope.

(** ** Floats

    What Python's [float] and a Float column hold: a signed significand
    of at most 53 bits scaled by a power of two, read as a rational.  The
    exponent range of a double is not modelled: the mean of integer column
    values over a table stays far inside it. *)

Module Float.
Record t : Type := Make { mantissa : Z; exponent : Z }.

(** The number a float stands for; floats compare by it. *)
Definition value (x : t) : Q := (inject_Z (mantissa x) * 2 ^ exponent x)%Q.

(** The literal [0.0]. *)
Definition zero : t := Make 0 0.

(** Falsy in Python: equal to zero. *)
Definition is_zero (x : t) : bool := mantissa x =? 0.

(** [a / b] divided by [2 ^ e], as a quotient of integers. *)
Definition scale (a b e : Z) : Z * Z :=
  if 0 <=? e then (a, b * 2 ^ e) else (a * 2 ^ (- e), b).

(** The integer nearest to [n / d], the even one of two equally near. *)
Definition round_half_even (n d : Z) : Z :=
  let q := n / d in
  match 2 * (n mod d) ?= d with
  | Lt => q
  | Gt => q + 1
  | Eq => if Z.even q then q else q + 1
  end.

(** The exponent [k] of the binade of [a / b]: [2 ^ k <= a / b < 2 ^ (k + 1)],
    for positive [a] and [b]. *)
Definition floor_log2 (a b : Z) : Z :=
  let k := Z.log2 a - Z.log2 b in
  let '(n, d) := scale a b k in
  if d <=? n then k else k - 1.

(** Conversion of an exact quotient to a float, rounding to nearest, ties
    to even: the significand is the quotient scaled into [2^52, 2^53) and
    rounded to an integer. *)
Definition of_Q (q : Q) : t :=
  let a := Qnum q in
  if a =? 0 then zero
  else
    let b := Z.pos (Qden q) in
    let e := floor_log2 (Z.abs a) b - 52 in
    let '(n, d) := scale (Z.abs a) b e in
    Make (Z.sgn a * round_half_even n d) e.

(** A significand of 53 bits. *)
Definition fits (x : t) : Prop := Z.abs (mantissa x) < 2 ^ 53.

(** The rationals that are floats. *)
Definition double (r : Q) : Prop := ∃ x, fits x ∧ (value x == r)%Q.

(** [r] is a float, and no float is nearer to [x]. *)
Definition nearest (r x : Q) : Prop :=
  double r ∧ ∀ d, fits d → (Qabs (r - x) <= Qabs (value d - x))%Q.
End Float.

Coercion Float.value : Float.t >-> Q.

(** ** Data model *)

Module ReviewModel.
(** Modelled from the spec: the declaration of [app.models.reviews.Review]
    is not among the sources; its columns are those of the data model.
    The primary key [id] is the key of the table, the other columns are
    the row; [comment_date] is a timestamp, here a number. *)
Record columns : Type := Columns {
  comment : string;
  grade : Z;
  user_id : Z;
  product_id : Z;
  comment_date : Z;
  is_active : bool
}.

(** A mapped row. *)
Abbreviation t := (Z * columns)%type.
Definition id (r : t) : Z := r.1.

Definition set_is_active (b : bool) (c : columns) : columns :=
  {| comment := comment c; grade := grade c; user_id := user_id c;
     product_id := product_id c; comment_date := comment_date c;
     is_active := b |}.
End ReviewModel.

Module ProductModel.
(** Modelled from the spec: the declaration of
    [app.models.products.Product] is not among the sources; these are the
    columns the router reads or writes, keyed by the primary key [id];
    [rating] is a float. *)
Record columns : Type := Columns {
  is_active : bool;
  rating : Float.t
}.

Definition set_rating (q : Float.t) (c : columns) : columns :=
  {| is_active := is_active c; rating := q |}.
End ProductModel.

Module UserModel.
(** Modelled from the spec: the declaration of [app.models.users.User] is
    not among the sources; the router reads the caller's [id] and [role]. *)
Record t : Type := Make {
  id : Z;
  role : string
}.
End UserModel.

Module ReviewCreate.
(** Modelled from the spec: the schema [app.schemas.ReviewCreate] is not
    among the sources; the request body has these three fields. *)
Record t : Type := Make {
  product_id : Z;
  comment : string;
  grade : Z
}.
End ReviewCreate.

Record Store : Type := MkStore {
  reviews : gmap Z ReviewModel.columns;
  products : gmap Z ProductModel.columns
}.

(** ** Exceptions and the handler monad *)

Definition HTTP_403_FORBIDDEN : Z := 403.
Definition HTTP_404_NOT_FOUND : Z := 404.
Definition HTTP_422_UNPROCESSABLE_CONTENT : Z := 422.

Inductive Exn : Type :=
  | HTTPException (status_code : Z)
  | AttributeError.

Definition Forbidden : Exn := HTTPException HTTP_403_FORBIDDEN.
Definition NotFound : Exn := HTTPException HTTP_404_NOT_FOUND.
Definition UnprocessableInput : Exn :=
  HTTPException HTTP_422_UNPROCESSABLE_CONTENT.

Inductive Outcome (A : Type) : Type :=
  | Return (a : A)
  | Raise (e : Exn).
Arguments Return {A} a.
Arguments Raise {A} e.

Definition DB (A : Type) : Type := Store → Store * Outcome A.

Definition ret {A} (a : A) : DB A := λ db, (db, Return a).
Definition raise {A} (e : Exn) : DB A := λ db, (db, Raise e).
Definition bind {A B} (c : DB A) (k : A → DB B) : DB B :=
  λ db, match c db with
        | (db', Return a) => k a db'
        | (db', Raise e) => (db', Raise e)
        end.
Definition query {A} (f : Store → A) : DB A := λ db, (db, Return (f db)).
Definition commit (f : Store → Store) : DB unit := λ db, (f db, Return tt).

Notation "x <- c ;; k" := (bind c (λ x, k))
  (at level 100, c at next level, right associativity).
Notation "c ;;; k" := (bind c (λ _, k))
  (at level 100, right associativity).

(** ** The persistence layer, as far as the router uses it *)

(** [select(ReviewModel).where(...)]: the rows satisfying a condition. *)
Definition select_reviews (cond : ReviewModel.t → bool) (db : Store)
  : gmap Z ReviewModel.columns :=
  filter (λ r, cond r = true) (reviews db).

(** [scalars(...).all()]: the selected rows as mapped objects, in storage
    order. *)
Definition all (m : gmap Z ReviewModel.columns) : list ReviewModel.t :=
  map_to_list m.

(** [.order_by(ReviewModel.comment_date.desc())]. *)
Definition comment_date_desc (a b : ReviewModel.t) : Prop :=
  ReviewModel.comment_date b.2 ≤ ReviewModel.comment_date a.2.

#[global] Instance comment_date_desc_dec a b : Decision (comment_date_desc a b).
Proof. unfold comment_date_desc. apply _. Defined.

Definition order_by_comment_date_desc (l : list ReviewModel.t)
  : list ReviewModel.t :=
  merge_sort comment_date_desc l.

(** [select(ProductModel).where(id == pid, is_active == True)] followed by
    [.first()]: at most one row has the key. *)
Definition first_active_product (pid : Z) (db : Store)
  : option ProductModel.columns :=
  match products db !! pid with
  | Some p => if ProductModel.is_active p then Some p else None
  | None => None
  end.

(** [select(ReviewModel).where(id == rid, is_active == True)] followed by
    [.first()]. *)
Definition first_active_review (rid : Z) (db : Store)
  : option ReviewModel.t :=
  match reviews db !! rid with
  | Some c => if ReviewModel.is_active c then Some (rid, c) else None
  | None => None
  end.

(** Modelled from the spec: the identifier is assigned at creation, by the
    database.  The key given to the next inserted review is one more than
    the largest key in use. *)
Definition next_review_id (db : Store) : Z :=
  1 + foldr Z.max 0 (map_to_list (reviews db)).*1.

(** [db.add(new_review); commit; refresh(new_review)]: the row is stored
    under a new key; [comment_date], which the router does not set, is the
    server's clock reading [now].  The refreshed object is the stored row. *)
Definition add_review (now : Z) (comment : string) (grade user_id product_id : Z)
    (is_active : bool) : DB ReviewModel.t :=
  λ db,
    let k := next_review_id db in
    let c := ReviewModel.Columns comment grade user_id product_id now is_active in
    (MkStore (<[k := c]> (reviews db)) (products db), Return (k, c)).

(** [update(ReviewModel).where(id == rid).values(is_active=False)]. *)
Definition update_review_inactive (rid : Z) (db : Store) : Store :=
  MkStore (alter (ReviewModel.set_is_active false) rid (reviews db))
          (products db).

(** [db.refresh(review)]: the columns are read again under the same key.
    The router refreshes only a row it has just read and updated, so the
    row is there. *)
Definition refresh (review : ReviewModel.t) (db : Store) : ReviewModel.t :=
  match reviews db !! ReviewModel.id review with
  | Some c => (ReviewModel.id review, c)
  | None => review
  end.

Definition sum_grades (gs : list Z) : Z := foldr Z.add 0 gs.

(** Modelled from the spec: [func.avg] is computed by the database, which
    is not among the sources.  It is NULL over no rows, and otherwise the
    sum over the count, which reaches Python as a float. *)
Definition func_avg (gs : list Z) : option Float.t :=
  match gs with
  | [] => None
  | _ => Some (Float.of_Q
                 (inject_Z (sum_grades gs) / inject_Z (Z.of_nat (length gs))))
  end.

(** The condition [product_id == pid, is_active == True]. *)
Definition of_product_active (pid : Z) (r : ReviewModel.t) : bool :=
  bool_decide (ReviewModel.product_id r.2 = pid)
  && bool_decide (ReviewModel.is_active r.2 = true).

Definition active_grades (pid : Z) (db : Store) : list Z :=
  (λ r : ReviewModel.t, ReviewModel.grade r.2)
    <$> all (select_reviews (of_product_active pid) db).

(** [select(func.avg(ReviewModel.grade)).where(...)] and [.scalar()]. *)
Definition scalar_avg_grade (pid : Z) (db : Store) : option Float.t :=
  func_avg (active_grades pid db).

(** Python's [x or 0.0]: the default replaces [None] and any falsy number. *)
Definition or_zero (x : option Float.t) : Float.t :=
  match x with
  | Some q => if Float.is_zero q then Float.zero else q
  | None => Float.zero
  end.

(** [db.get(ProductModel, pid)]. *)
Definition get_product (pid : Z) (db : Store) : option ProductModel.columns :=
  products db !! pid.

(** [product.rating = avg_rating; commit]. *)
Definition store_rating (pid : Z) (p : ProductModel.columns) (q : Float.t)
    (db : Store) : Store :=
  MkStore (reviews db) (<[pid := ProductModel.set_rating q p]> (products db)).

(** ** The handlers *)

Definition get_all_reviews : DB (list ReviewModel.t) :=
  reviews_result <- query (select_reviews
                             (λ r, bool_decide (ReviewModel.is_active r.2 = true))) ;;
  ret (all reviews_result).

Definition get_reviews_by_product (product_id : Z) : DB (list ReviewModel.t) :=
  product <- query (first_active_product product_id) ;;
  match product with
  | None => raise NotFound
  | Some _ =>
      result <- query (select_reviews (of_product_active product_id)) ;;
      ret (order_by_comment_date_desc (all result))
  end.

Definition create_reviews (review : ReviewCreate.t) (current_user : UserModel.t)
    (now : Z) : DB ReviewModel.t :=
  if bool_decide (UserModel.role current_user ≠ "buyer") then raise Forbidden
  else
    product <- query (first_active_product (ReviewCreate.product_id review)) ;;
    match product with
    | None => raise NotFound
    | Some _ =>
        if (ReviewCreate.grade review <? 1) || (5 <? ReviewCreate.grade review)
        then raise UnprocessableInput
        else
          new_review <- add_review now
                          (ReviewCreate.comment review)
                          (ReviewCreate.grade review)
                          (UserModel.id current_user)
                          (ReviewCreate.product_id review)
                          true ;;
          result <- query (scalar_avg_grade (ReviewCreate.product_id review)) ;;
          let avg_rating := or_zero result in
          product <- query (get_product (ReviewCreate.product_id review)) ;;
          match product with
          | None => raise AttributeError
          | Some p =>
              commit (store_rating (ReviewCreate.product_id review) p avg_rating) ;;;
              ret new_review
          end
    end.

Definition review_deleted : list (string * string) :=
  [("message", "Review deleted")].

Definition delete_reviews (review_id : Z) (current_user : UserModel.t)
  : DB (list (string * string)) :=
  if bool_decide (UserModel.role current_user ≠ "admin") then raise Forbidden
  else
    review <- query (first_active_review review_id) ;;
    match review with
    | None => raise NotFound
    | Some review =>
        commit (update_review_inactive review_id) ;;;
        review <- query (refresh review) ;;
        result <- query (scalar_avg_grade (ReviewModel.product_id review.2)) ;;
        let avg_rating := or_zero result in
        product <- query (get_product (ReviewModel.product_id review.2)) ;;
        match product with
        | None => raise AttributeError
        | Some p =>
            commit (store_rating (ReviewModel.product_id review.2) p avg_rating) ;;;
            ret review_deleted
        end
    end.

(** ** The specification's notions

    These follow the specification's wording, not the router's queries: the
    rating of a product is the arithmetic mean of [grade] over its
    currently active reviews, or 0.0 when it has none; a listing for a
    product is ordered by [comment_date], most recent first. *)

(** The sum of a list of grades. *)
Definition total (gs : list Z) : Z := fold_left Z.add gs 0.

(** The arithmetic mean of a non-empty list of grades, exactly. *)
Definition exact_mean (gs : list Z) : Q :=
  (inject_Z (total gs) / inject_Z (Z.of_nat (length gs)))%Q.

(** [r] is the mean of [gs] as far as a float can be: a float nearest to
    the exact mean, and 0.0 when there is no grade. *)
Definition is_mean (r : Q) (gs : list Z) : Prop :=
  match gs with
  | [] => (r == 0)%Q
  | _ => Float.nearest r (exact_mean gs)
  end.

Definition active_reviews_of (pid : Z) (db : Store) : list ReviewModel.t :=
  filter (λ r : ReviewModel.t,
            ReviewModel.product_id r.2 = pid ∧ ReviewModel.is_active r.2 = true)
         (map_to_list (reviews db)).

(** The grades of the active reviews of a product. *)
Definition grades_of (pid : Z) (db : Store) : list Z :=
  (λ r : ReviewModel.t, ReviewModel.grade r.2) <$> active_reviews_of pid db.

(** The rating invariant of the data model, for one product and for all. *)
Definition rating_is_mean (pid : Z) (db : Store) : Prop :=
  ∀ p, products db !! pid = Some p →
       is_mean (ProductModel.rating p) (grades_of pid db).

Definition rating_consistent (db : Store) : Prop :=
  ∀ pid, rating_is_mean pid db.

(** Most recent first: of two positions of a list, the earlier one holds
    the later or equal [comment_date]. *)
Definition newest_first (l : list ReviewModel.t) : Prop :=
  ∀ (i j : nat) (r r' : ReviewModel.t),
    (i < j)%nat → l !! i = Some r → l !! j = Some r' →
    ReviewModel.comment_date r'.2 ≤ ReviewModel.comment_date r.2.

Definition product_available (pid : Z) (db : Store) : Prop :=
  ∃ p, products db !! pid = Some p ∧ ProductModel.is_active p = true.

Definition product_missing_or_inactive (pid : Z) (db : Store) : Prop :=
  products db !! pid = None
  ∨ ∃ p, products db !! pid = Some p ∧ ProductModel.is_active p = false.

Definition review_missing_or_inactive (rid : Z) (db : Store) : Prop :=
  reviews db !! rid = None
  ∨ ∃ c, reviews db !! rid = Some c ∧ ReviewModel.is_active c = false.

Definition grade_in_range (g : Z) : Prop := 1 ≤ g ≤ 5.

(** ** Intermediate stores and steps *)

(** The row a create request stores. *)
Definition created (review : ReviewCreate.t) (current_user : UserModel.t)
    (now : Z) : ReviewModel.columns :=
  ReviewModel.Columns (ReviewCreate.comment review) (ReviewCreate.grade review)
    (UserModel.id current_user) (ReviewCreate.product_id review) now true.

(** The store once the new row is committed, before the rating is. *)
Definition inserted (review : ReviewCreate.t) (current_user : UserModel.t)
    (now : Z) (db : Store) : Store :=
  MkStore (<[next_review_id db := created review current_user now]> (reviews db))
          (products db).

(** A successful create or delete, as a step between stores; [pid] is the
    product the written review belongs to. *)
Inductive write_succeeds (pid : Z) (db db' : Store) : Prop :=
  | create_succeeds review current_user now r :
      create_reviews review current_user now db = (db', Return r) →
      pid = ReviewCreate.product_id review →
      write_succeeds pid db db'
  | delete_succeeds review_id current_user c m :
      delete_reviews review_id current_user db = (db', Return m) →
      reviews db !! review_id = Some c →
      pid = ReviewModel.product_id c →
      write_succeeds pid db db'.

(** A call of one of the two writing handlers, whatever its outcome. *)
Definition write_called (db db' : Store) : Prop :=
  (∃ review current_user now out,
     create_reviews review current_user now db = (db', out))
  ∨ (∃ review_id current_user out,
       delete_reviews review_id current_user db = (db', out)).

(** ** Concrete stores

    The scenario of the specification: product 7 without reviews, a review
    of grade 4 by one buyer, a review of grade 2 by another, then an admin
    deletes the first review. *)

Definition shop0 : Store :=
  MkStore ∅ {[ 7 := ProductModel.Columns true Float.zero ]}.
Definition buyer_a : UserModel.t := UserModel.Make 1 "buyer".
Definition buyer_b : UserModel.t := UserModel.Make 2 "buyer".
Definition admin_c : UserModel.t := UserModel.Make 3 "admin".
Definition shop1 : Store :=
  (create_reviews (ReviewCreate.Make 7 "fine" 4) buyer_a 100 shop0).1.
Definition shop2 : Store :=
  (create_reviews (ReviewCreate.Make 7 "so-so" 2) buyer_b 200 shop1).1.
Definition shop3 : Store := (delete_reviews 1 admin_c shop2).1.

(** A shop whose only product is inactive. *)
Definition shop_closed : Store :=
  MkStore ∅ {[ 9 := ProductModel.Columns false Float.zero ]}.

(** ** Further notions and stores *)

(** Two rows that differ at most in [is_active]. *)
Definition same_content (c c' : ReviewModel.columns) : Prop :=
  ReviewModel.comment c' = ReviewModel.comment c
  ∧ ReviewModel.grade c' = ReviewModel.grade c
  ∧ ReviewModel.user_id c' = ReviewModel.user_id c
  ∧ ReviewModel.product_id c' = ReviewModel.product_id c
  ∧ ReviewModel.comment_date c' = ReviewModel.comment_date c.

(** Every stored grade passes the check of the create handler. *)
Definition grades_in_range (db : Store) : Prop :=
  ∀ k c, reviews db !! k = Some c → grade_in_range (ReviewModel.grade c).

(** A store whose review 1 names product 4, of which there is no row. *)
Definition shop_orphan : Store :=
  MkStore {[ 1 := ReviewModel.Columns "lost" 3 1 4 50 true ]} ∅.

(** A store whose review 1 belongs to the inactive product 9. *)
Definition shop_retired : Store :=
  MkStore {[ 1 := ReviewModel.Columns "old" 5 1 9 50 true ]}
          {[ 9 := ProductModel.Columns false (Float.Make 5 0) ]}.

(** Product 7 gets reviews of grades 1 and 2, and then a third one, of
    grade 2. *)
Definition shop_pair : Store :=
  (create_reviews (ReviewCreate.Make 7 "so-so" 2) buyer_b 200
     (create_reviews (ReviewCreate.Make 7 "poor" 1) buyer_a 100 shop0).1).1.
Definition shop_thirds : Store :=
  (create_reviews (ReviewCreate.Make 7 "again" 2) buyer_b 300 shop_pair).1.

(** Product 7 has three active reviews whose dates are not in the order of
    their keys, and an inactive one that is the most recent. *)
Definition shop_dates : Store :=
  MkStore {[ 1 := ReviewModel.Columns "first" 5 1 7 300 true;
             2 := ReviewModel.Columns "second" 3 2 7 100 true;
             3 := ReviewModel.Columns "third" 4 1 7 200 true;
             4 := ReviewModel.Columns "gone" 1 2 7 400 false ]}
          {[ 7 := ProductModel.Columns true (Float.Make 4 0) ]}.

(** Product 7 is rated 1.0 although its one active review has grade 4;
    product 8 has one active review, of grade 3. *)
Definition shop_stale : Store :=
  MkStore {[ 1 := ReviewModel.Columns "fine" 4 1 7 100 true;
             2 := ReviewModel.Columns "okay" 3 2 8 200 true ]}
          {[ 7 := ProductModel.Columns true (Float.Make 1 0);
             8 := ProductModel.Columns true (Float.Make 3 0) ]}.

(** * Properties *)

(** ** Rounding to a float *)

Section rounding.
Import Float.

Lemma round_half_even_cases n d :
  round_half_even n d = n / d ∨ round_half_even n d = n / d + 1.
Proof.
  unfold round_half_even.
  destruct (2 * (n mod d) ?= d); [destruct (Z.even (n / d))|..]; auto.
Qed.

(** The rounded quotient is an integer nearest to [n / d]. *)
Lemma round_half_even_nearest n d z :
  0 < d →
  Z.abs (round_half_even n d * d - n) ≤ Z.abs (z * d - n).
Proof.
  intros Hd.
  pose proof (Z.div_mod n d ltac:(lia)) as Hn.
  pose proof (Z.mod_pos_bound n d Hd) as Hr.
  set (q := n / d) in *. set (r := n mod d) in *.
  assert (z ≤ q ∨ q + 1 ≤ z) as [Hz|Hz] by lia.
  - assert (z * d ≤ q * d) by (apply Z.mul_le_mono_nonneg_r; lia).
    unfold round_half_even. fold q r.
    destruct (Z.compare_spec (2 * r) d) as [E|E|E];
      [destruct (Z.even q)|..]; lia.
  - assert ((q + 1) * d ≤ z * d) by (apply Z.mul_le_mono_nonneg_r; lia).
    unfold round_half_even. fold q r.
    destruct (Z.compare_spec (2 * r) d) as [E|E|E];
      [destruct (Z.even q)|..]; lia.
Qed.

Lemma round_half_even_lower n d lo :
  0 < d → lo * d ≤ n → lo ≤ round_half_even n d.
Proof.
  intros Hd Hlo.
  assert (lo ≤ n / d) by (apply Z.div_le_lower_bound; lia).
  destruct (round_half_even_cases n d) as [->| ->]; lia.
Qed.

Lemma round_half_even_upper n d hi :
  0 < d → n ≤ hi * d → round_half_even n d ≤ hi.
Proof.
  intros Hd Hhi.
  pose proof (Z.div_mod n d ltac:(lia)) as Hn.
  pose proof (Z.mod_pos_bound n d Hd) as Hr.
  destruct (decide (n = hi * d)) as [->|Hne].
  - unfold round_half_even. rewrite Z.mod_mul, Z.div_mul by lia.
    destruct (Z.compare_spec (2 * 0) d); [destruct (Z.even hi)|..]; lia.
  - assert (n / d < hi) by (apply Z.div_lt_upper_bound; lia).
    destruct (round_half_even_cases n d) as [->| ->]; lia.
Qed.
End rounding.

Section rounding_Q.
Import Float.
Local Open Scope Q_scope.

Lemma pow2_pos e : 0 < 2 ^ e.
Proof. by apply Qpower_0_lt. Qed.

Lemma pow2_succ e : 2 ^ (e + 1) == 2 * 2 ^ e.
Proof. rewrite Qpower_plus by done. rewrite Qpower_1_r. ring. Qed.

Lemma pow2_inject (e : Z) : (0 ≤ e)%Z → inject_Z (2 ^ e) == 2 ^ e.
Proof. intros He. by rewrite Zpower_Qpower. Qed.

Lemma scale_spec a b e n d :
  (0 < b)%Z → scale a b e = (n, d) →
  (0 < d)%Z ∧ inject_Z a * inject_Z d == inject_Z n * inject_Z b * 2 ^ e.
Proof.
  intros Hb. unfold scale. destruct (Z.leb_spec 0 e) as [He|He]; intros [= <- <-].
  - split; [apply Z.mul_pos_pos; [done|by apply Z.pow_pos_nonneg]|].
    rewrite inject_Z_mult, pow2_inject by done. ring.
  - split; [done|].
    rewrite inject_Z_mult, pow2_inject by lia.
    rewrite Qpower_opp. field. apply Qpower_not_0. discriminate.
Qed.
End rounding_Q.

Section floor_log2.
Import Float.
Local Open Scope Q_scope.

Lemma log2_bounds a :
  (0 < a)%Z → 2 ^ Z.log2 a <= inject_Z a ∧ inject_Z a < 2 * 2 ^ Z.log2 a.
Proof.
  intros Ha. pose proof (Z.log2_spec a Ha) as [Hlo Hhi].
  pose proof (Z.log2_nonneg a) as Hnn.
  rewrite Zle_Qle in Hlo. rewrite Zlt_Qlt in Hhi.
  rewrite pow2_inject in Hlo by done.
  rewrite pow2_inject in Hhi by lia.
  replace (Z.succ (Z.log2 a)) with (Z.log2 a + 1)%Z in Hhi by lia.
  rewrite pow2_succ in Hhi. by split.
Qed.

Lemma floor_log2_spec a b :
  (0 < a)%Z → (0 < b)%Z →
  2 ^ floor_log2 a b * inject_Z b <= inject_Z a
  ∧ inject_Z a < 2 * 2 ^ floor_log2 a b * inject_Z b.
Proof.
  intros Ha Hb.
  destruct (log2_bounds a Ha) as [Ha1 Ha2].
  destruct (log2_bounds b Hb) as [Hb1 Hb2].
  unfold floor_log2.
  set (k := (Z.log2 a - Z.log2 b)%Z).
  assert (2 ^ Z.log2 a == 2 ^ k * 2 ^ Z.log2 b) as Hk.
  { unfold k. rewrite Qpower_minus by done. field.
    apply Qpower_not_0. discriminate. }
  pose proof (pow2_pos k) as Hpk.
  pose proof (pow2_pos (Z.log2 b)) as Hpb.
  destruct (scale a b k) as [n d] eqn:Hs.
  apply scale_spec in Hs as [Hd Hs]; [|done].
  assert (0 < inject_Z d) as Hd' by (by rewrite (Zlt_Qlt 0) in Hd).
  assert (0 < inject_Z b) as Hb' by (by rewrite (Zlt_Qlt 0) in Hb).
  set (A := inject_Z a) in *. set (B := inject_Z b) in *.
  set (D := inject_Z d) in *. set (N := inject_Z n) in *.
  set (pa := 2 ^ Z.log2 a) in *. set (pb := 2 ^ Z.log2 b) in *.
  destruct (Z.leb_spec d n) as [Hdn|Hdn].
  - rewrite Zle_Qle in Hdn. fold D N in Hdn.
    set (p := 2 ^ k) in *. split.
    + apply (Qmult_le_r _ _ D); [done|].
      rewrite Hs.
      assert (0 <= (N - D) * (B * p)) by (apply Qmult_le_0_compat; nra).
      nra.
    + assert (0 <= p * (B - pb)) by (apply Qmult_le_0_compat; nra).
      nra.
  - rewrite Zlt_Qlt in Hdn. fold D N in Hdn.
    assert (2 ^ k == 2 * 2 ^ (k - 1)) as Hk1.
    { rewrite <- pow2_succ. by replace (k - 1 + 1)%Z with k by lia. }
    pose proof (pow2_pos (k - 1)) as Hpk1.
    set (p := 2 ^ k) in *. set (p1 := 2 ^ (k - 1)) in *.
    split.
    + assert (0 <= p1 * (2 * pb - B)) by (apply Qmult_le_0_compat; nra).
      nra.
    + rewrite <- Hk1.
      apply (Qmult_lt_r _ _ D); [done|].
      rewrite Hs.
      assert (0 < (D - N) * (B * p)).
      { apply Qmult_lt_0_compat; [nra|]. apply Qmult_lt_0_compat; nra. }
      nra.
Qed.
End floor_log2.

Section of_Q.
Import Float.
Local Open Scope Q_scope.

Lemma Qabs_inject_Z z : Qabs (inject_Z z) = inject_Z (Z.abs z).
Proof. reflexivity. Qed.

(** The rounded quotient, as a rational, is an integer nearest to [n / d]. *)
Lemma round_half_even_nearest_Q n d z :
  (0 < d)%Z →
  Qabs (inject_Z (round_half_even n d) - inject_Z n / inject_Z d)
  <= Qabs (inject_Z z - inject_Z n / inject_Z d).
Proof.
  intros Hd.
  assert (0 < inject_Z d) as Hd' by (by rewrite (Zlt_Qlt 0) in Hd).
  assert (∀ y, inject_Z y - inject_Z n / inject_Z d
               == inject_Z (y * d - n) * / inject_Z d) as Hsub.
  { intros y. unfold Zminus. rewrite inject_Z_plus, inject_Z_mult, inject_Z_opp.
    field. lra. }
  rewrite !Hsub, !Qabs_Qmult, !Qabs_inject_Z.
  apply Qmult_le_compat_r; [|apply Qabs_nonneg].
  rewrite <- Zle_Qle. by apply round_half_even_nearest.
Qed.

(** The parts [of_Q] is made of, for a positive quotient [a / b]. *)
Lemma of_Q_core a b n d :
  (0 < a)%Z → (0 < b)%Z →
  scale a b (floor_log2 a b - 52) = (n, d) →
  (0 < d)%Z
  ∧ inject_Z a / inject_Z b
    == inject_Z n / inject_Z d * 2 ^ (floor_log2 a b - 52)
  ∧ (2 ^ 52 * d ≤ n)%Z ∧ (n ≤ 2 ^ 53 * d)%Z.
Proof.
  intros Ha Hb Hs.
  destruct (floor_log2_spec a b Ha Hb) as [Hlo Hhi].
  set (k := floor_log2 a b) in *.
  apply scale_spec in Hs as [Hd Hs]; [|done].
  assert (0 < inject_Z d) as Hd' by (by rewrite (Zlt_Qlt 0) in Hd).
  assert (0 < inject_Z b) as Hb' by (by rewrite (Zlt_Qlt 0) in Hb).
  pose proof (pow2_pos (k - 52)) as Hp.
  assert (2 ^ k == inject_Z (2 ^ 52) * 2 ^ (k - 52)) as Hk.
  { rewrite pow2_inject by done. rewrite <- Qpower_plus by done.
    by replace (52 + (k - 52))%Z with k by lia. }
  set (A := inject_Z a) in *. set (B := inject_Z b) in *.
  set (D := inject_Z d) in *. set (N := inject_Z n) in *.
  set (P := 2 ^ (k - 52)) in *. set (p := 2 ^ k) in *.
  set (c := inject_Z (2 ^ 52)) in *.
  assert (0 < c) as Hc by (by unfold c; rewrite <- (Zlt_Qlt 0)).
  split; [done|]. split; [|split].
  - apply (Qmult_inj_r _ _ (B * D)); [nra|].
    transitivity (A * D); [field; lra|].
    rewrite Hs. field. lra.
  - rewrite Zle_Qle, inject_Z_mult. fold c D N.
    assert (0 < B * P) as HBP by (apply Qmult_lt_0_compat; lra).
    apply (Qmult_le_r _ _ (B * P)); [done|].
    assert (c * D * (B * P) == p * B * D) as -> by (rewrite Hk; ring).
    assert (N * (B * P) == A * D) as -> by (rewrite Hs; ring).
    apply Qmult_le_compat_r; lra.
  - rewrite Zle_Qle, inject_Z_mult.
    change (inject_Z (2 ^ 53)) with (2 * c). fold D N.
    assert (0 < B * P) as HBP by (apply Qmult_lt_0_compat; lra).
    apply (Qmult_le_r _ _ (B * P)); [done|].
    assert (2 * c * D * (B * P) == 2 * p * B * D) as -> by (rewrite Hk; ring).
    assert (N * (B * P) == A * D) as -> by (rewrite Hs; ring).
    apply Qmult_le_compat_r; lra.
Qed.
End of_Q.

Section nearest.
Import Float.
Local Open Scope Q_scope.

Lemma of_Q_nearest_pos a b n d x :
  (0 < a)%Z → (0 < b)%Z →
  scale a b (floor_log2 a b - 52) = (n, d) →
  fits x →
  Qabs (inject_Z (round_half_even n d) * 2 ^ (floor_log2 a b - 52)
        - inject_Z a / inject_Z b)
  <= Qabs (value x - inject_Z a / inject_Z b).
Proof.
  intros Ha Hb Hs Hx.
  destruct (of_Q_core a b n d Ha Hb Hs) as (Hd & HX & Hlo & _).
  set (e := (floor_log2 a b - 52)%Z) in *.
  set (m := round_half_even n d).
  assert (0 < inject_Z d) as Hd' by (by rewrite (Zlt_Qlt 0) in Hd).
  pose proof (pow2_pos e) as HP.
  set (T := inject_Z n / inject_Z d) in *.
  destruct x as [m' e']. unfold value, fits in *.
  cbn [mantissa exponent] in *.
  set (j := (e' - e)%Z).
  assert (2 ^ e' == 2 ^ j * 2 ^ e) as He'.
  { unfold j. rewrite <- Qpower_plus by done.
    by replace (e' - e + e)%Z with e' by lia. }
  rewrite HX, He'.
  assert (∀ u, u * 2 ^ e - T * 2 ^ e == (u - T) * 2 ^ e) as Hfac
    by (intros; ring).
  assert (inject_Z m' * (2 ^ j * 2 ^ e) - T * 2 ^ e
          == (inject_Z m' * 2 ^ j - T) * 2 ^ e) as -> by ring.
  rewrite Hfac, !Qabs_Qmult.
  apply Qmult_le_compat_r; [|apply Qabs_nonneg].
  destruct (Z.le_gt_cases 0 j) as [Hj|Hj].
  - rewrite <- pow2_inject, <- inject_Z_mult by done.
    by apply round_half_even_nearest_Q.
  - (* a float of a finer exponent lies below the binade of [T] *)
    set (c := inject_Z (2 ^ 52)).
    assert (c <= T) as HT.
    { unfold T, c. apply Qle_shift_div_l; [done|].
      by rewrite <- inject_Z_mult, <- Zle_Qle. }
    assert (inject_Z m' * 2 ^ j < c) as Hu.
    { assert (2 ^ j <= 2 ^ (-1)) as Hhalf
        by (apply Qpower_le_compat_l; [lia|done]).
      change (2 ^ (-1)) with (1 # 2) in Hhalf.
      pose proof (pow2_pos j) as Hpj.
      assert (inject_Z m' < 2 * c) as Hm'.
      { change (2 * c) with (inject_Z (2 ^ 53)). rewrite <- Zlt_Qlt. lia. }
      assert (0 < c) as Hc by (by unfold c; rewrite <- (Zlt_Qlt 0)).
      set (M' := inject_Z m') in *. set (pj := 2 ^ j) in *.
      destruct (Qlt_le_dec 0 M') as [Hpos|Hneg].
      - assert (0 <= M' * ((1 # 2) - pj)) by (apply Qmult_le_0_compat; lra).
        lra.
      - assert (0 <= (- M') * pj) by (apply Qmult_le_0_compat; lra).
        lra. }
    apply (Qle_trans _ (Qabs (c - T))); [by apply round_half_even_nearest_Q|].
    rewrite (Qabs_neg (c - T)) by lra.
    rewrite (Qabs_neg (inject_Z m' * 2 ^ j - T)) by lra.
    lra.
Qed.

Lemma Qnum_0 q : Qnum q = 0%Z → q == 0.
Proof. destruct q as [a b]. simpl. intros ->. reflexivity. Qed.

Lemma Q_sign_abs q :
  q == inject_Z (Z.sgn (Qnum q))
       * (inject_Z (Z.abs (Qnum q)) / inject_Z (Z.pos (Qden q))).
Proof.
  destruct q as [a b]. simpl.
  rewrite (Qmake_Qdiv a b) at 1.
  unfold Qdiv. rewrite Qmult_assoc, <- inject_Z_mult.
  by rewrite Z.mul_comm, Z.abs_sgn.
Qed.

(** [of_Q q] is a double, and no double is nearer to [q]. *)
Theorem of_Q_nearest q : nearest (value (of_Q q)) q.
Proof.
  unfold of_Q. cbv zeta. destruct (Z.eqb_spec (Qnum q) 0) as [H0|H0].
  { apply Qnum_0 in H0. split.
    - exists zero. split; [done|reflexivity].
    - intros d _. rewrite H0.
      change (value zero - 0) with 0. apply Qabs_nonneg. }
  set (a := Z.abs (Qnum q)). set (b := Z.pos (Qden q)).
  set (s := Z.sgn (Qnum q)).
  assert (0 < a)%Z as Ha by (unfold a; lia).
  assert (0 < b)%Z as Hb by done.
  assert (s * s = 1)%Z as Hss by (unfold s; lia).
  assert (inject_Z s * inject_Z s == 1) as HSS
    by (by rewrite <- inject_Z_mult, Hss).
  assert (Qabs (inject_Z s) == 1) as Habs.
  { rewrite Qabs_inject_Z. replace (Z.abs s) with 1%Z by (unfold s; lia). done. }
  pose proof (Q_sign_abs q) as Hq. fold a b s in Hq.
  destruct (scale a b (floor_log2 a b - 52)) as [n d] eqn:Hs.
  destruct (of_Q_core a b n d Ha Hb Hs) as (Hd & _ & Hlo & Hhi).
  set (e := (floor_log2 a b - 52)%Z) in *.
  set (m := round_half_even n d).
  assert (2 ^ 52 ≤ m ≤ 2 ^ 53)%Z as Hm.
  { split.
    - apply round_half_even_lower; [done|lia].
    - apply round_half_even_upper; [done|lia]. }
  unfold nearest. cbv beta iota. unfold value at 1 2.
  cbn [mantissa exponent]. fold a s.
  split.
  - destruct (decide (m = 2 ^ 53)%Z) as [Em|Em].
    + exists (Make (s * 2 ^ 52) (e + 1)). split.
      * unfold fits. simpl. rewrite Z.abs_mul.
        replace (Z.abs s) with 1%Z by (unfold s; lia). done.
      * unfold value. simpl. rewrite pow2_succ, Em, !inject_Z_mult.
        change (inject_Z (2 ^ 53)) with (2 * inject_Z (2 ^ 52)). ring.
    + exists (Make (s * m) e). split; [|reflexivity].
      unfold fits. simpl. rewrite Z.abs_mul.
      replace (Z.abs s) with 1%Z by (unfold s; lia). lia.
  - intros x Hx.
    set (x' := Make (s * mantissa x) (exponent x)).
    assert (fits x') as Hx'.
    { unfold fits, x' in *. simpl. rewrite Z.abs_mul.
      replace (Z.abs s) with 1%Z by (unfold s; lia). lia. }
    pose proof (of_Q_nearest_pos a b n d x' Ha Hb Hs Hx') as Hnear.
    fold e m in Hnear.
    set (X := inject_Z a / inject_Z b) in *.
    assert (inject_Z (s * m) * 2 ^ e - q
            == inject_Z s * (inject_Z m * 2 ^ e - X)) as ->
      by (rewrite Hq at 1; rewrite inject_Z_mult; ring).
    assert (value x - q == inject_Z s * (value x' - X)) as ->.
    { rewrite Hq at 1. unfold value, x'. simpl. rewrite inject_Z_mult.
      transitivity (inject_Z s * inject_Z s
                    * (inject_Z (mantissa x) * 2 ^ exponent x)
                    - inject_Z s * X); [rewrite HSS|]; ring. }
    by rewrite !Qabs_Qmult, Habs, !Qmult_1_l.
Qed.
End nearest.

Section nearest_facts.
Import Float.
Local Open Scope Q_scope.

Lemma double_inject_Z g : (Z.abs g < 2 ^ 53)%Z → double (inject_Z g).
Proof.
  intros Hg. exists (Make g 0). split; [done|].
  unfold value. cbn [mantissa exponent]. rewrite Qpower_0_r. ring.
Qed.

Lemma nearest_exact r x : nearest r x → double x → r == x.
Proof.
  intros [_ Hn] (d & Hd & Ed). specialize (Hn d Hd). rewrite Ed in Hn.
  assert (Qabs (x - x) == 0) as E0
    by (rewrite (Qabs_wd (x - x) 0) by ring; reflexivity).
  rewrite E0 in Hn.
  destruct (Qabs_Qle_condition (r - x) 0) as [H _]. specialize (H Hn). lra.
Qed.

Lemma nearest_lower r x lo : nearest r x → double lo → lo <= x → lo <= r.
Proof.
  intros [_ Hn] (d & Hd & Ed) Hlo. specialize (Hn d Hd). rewrite Ed in Hn.
  destruct (Qlt_le_dec r lo) as [Hlt|Hge]; [|done].
  rewrite (Qabs_neg (r - x)), (Qabs_neg (lo - x)) in Hn by lra. lra.
Qed.

Lemma nearest_upper r x hi : nearest r x → double hi → x <= hi → r <= hi.
Proof.
  intros [_ Hn] (d & Hd & Ed) Hhi. specialize (Hn d Hd). rewrite Ed in Hn.
  destruct (Qlt_le_dec hi r) as [Hlt|Hge]; [|done].
  rewrite (Qabs_pos (r - x)), (Qabs_pos (hi - x)) in Hn by lra. lra.
Qed.

Lemma nearest_proper r r' x x' : r == r' → x == x' → nearest r x → nearest r' x'.
Proof.
  intros Er Ex [(d & Hd & Ed) Hn]. split.
  - exists d. split; [done|]. by rewrite Ed.
  - intros d' Hd'. rewrite <- Er, <- Ex. by apply Hn.
Qed.
End nearest_facts.

(** ** Means and averages *)

Lemma sum_grades_Permutation gs gs' : gs ≡ₚ gs' → sum_grades gs = sum_grades gs'.
Proof.
  induction 1; simpl; unfold sum_grades in *; simpl; lia.
Qed.

Lemma total_sum_grades gs : total gs = sum_grades gs.
Proof.
  unfold total, sum_grades.
  assert (∀ acc, fold_left Z.add gs acc = acc + foldr Z.add 0 gs) as H.
  { induction gs as [|g gs IH]; intros acc; simpl; [lia|]. rewrite IH. lia. }
  by rewrite H.
Qed.

Lemma exact_mean_Permutation gs gs' : gs ≡ₚ gs' → exact_mean gs = exact_mean gs'.
Proof.
  intros Hp. unfold exact_mean.
  by rewrite !total_sum_grades, (sum_grades_Permutation _ _ Hp),
       (Permutation_length Hp).
Qed.

Lemma is_mean_Permutation r gs gs' : gs ≡ₚ gs' → is_mean r gs → is_mean r gs'.
Proof.
  intros Hp. unfold is_mean.
  destruct gs as [|g gs], gs' as [|g' gs'].
  - done.
  - apply Permutation_nil_cons in Hp as [].
  - symmetry in Hp. apply Permutation_nil_cons in Hp as [].
  - by rewrite (exact_mean_Permutation _ _ Hp).
Qed.

Lemma is_mean_proper r r' gs : (r == r')%Q → is_mean r gs → is_mean r' gs.
Proof.
  intros Er. unfold is_mean. destruct gs as [|g gs].
  - intros H. by rewrite <- Er.
  - by apply nearest_proper.
Qed.

Lemma value_is_zero (x : Float.t) :
  Float.is_zero x = true → (Float.value x == 0)%Q.
Proof.
  unfold Float.is_zero, Float.value. intros ->%Z.eqb_eq.
  apply Qmult_0_l.
Qed.

(** [x or 0.0] stands for the same number as [x]. *)
Lemma or_zero_value (x : Float.t) :
  (Float.value (or_zero (Some x)) == Float.value x)%Q.
Proof.
  simpl. destruct (Float.is_zero x) eqn:E; [|reflexivity].
  rewrite (value_is_zero x E). reflexivity.
Qed.

(** The database's average, with Python's default, is the mean. *)
Lemma or_zero_func_avg gs : is_mean (or_zero (func_avg gs)) gs.
Proof.
  destruct gs as [|g gs]; [reflexivity|].
  unfold func_avg, is_mean.
  eapply nearest_proper; [symmetry; apply or_zero_value| |apply of_Q_nearest].
  unfold exact_mean. by rewrite total_sum_grades.
Qed.

Lemma of_product_active_true pid (r : ReviewModel.t) :
  of_product_active pid r = true ↔
  ReviewModel.product_id r.2 = pid ∧ ReviewModel.is_active r.2 = true.
Proof.
  unfold of_product_active.
  rewrite andb_true_iff, !bool_decide_eq_true. reflexivity.
Qed.

Lemma all_select_reviews pid db :
  all (select_reviews (of_product_active pid) db) ≡ₚ active_reviews_of pid db.
Proof.
  unfold all, select_reviews, active_reviews_of.
  apply NoDup_Permutation.
  - apply NoDup_map_to_list.
  - apply NoDup_filter, NoDup_map_to_list.
  - intros [k c]. rewrite elem_of_map_to_list, map_lookup_filter_Some.
    rewrite list_elem_of_filter, elem_of_map_to_list, of_product_active_true.
    tauto.
Qed.

(** The grades the router averages are the grades of the product's active
    reviews. *)
Lemma active_grades_grades_of pid db : active_grades pid db ≡ₚ grades_of pid db.
Proof.
  unfold active_grades, grades_of. apply fmap_Permutation, all_select_reviews.
Qed.

(** ** The persistence layer: keys and frames *)

Lemma next_review_id_above db k c :
  reviews db !! k = Some c → k < next_review_id db.
Proof.
  intros Hk. unfold next_review_id.
  apply elem_of_map_to_list in Hk.
  apply (list_elem_of_fmap_2 fst) in Hk. simpl in Hk.
  induction Hk as [x l|x y l _ IH]; simpl; lia.
Qed.

Lemma next_review_id_fresh db : reviews db !! next_review_id db = None.
Proof.
  destruct (reviews db !! next_review_id db) as [c|] eqn:E; [|reflexivity].
  apply next_review_id_above in E. lia.
Qed.

Lemma select_reviews_insert_other pid k c rs ps :
  ReviewModel.product_id c ≠ pid →
  rs !! k = None →
  select_reviews (of_product_active pid) (MkStore (<[k := c]> rs) ps)
  = select_reviews (of_product_active pid) (MkStore rs ps).
Proof.
  intros Hne Hk. unfold select_reviews. simpl.
  rewrite map_filter_insert_False.
  - by rewrite delete_id.
  - rewrite of_product_active_true. simpl. tauto.
Qed.

Lemma select_reviews_deactivate_other pid rid c db :
  reviews db !! rid = Some c →
  ReviewModel.product_id c ≠ pid →
  select_reviews (of_product_active pid) (update_review_inactive rid db)
  = select_reviews (of_product_active pid) db.
Proof.
  intros Hc Hne. unfold select_reviews, update_review_inactive. simpl.
  apply map_eq. intros k. apply option_eq. intros c'.
  rewrite !map_lookup_filter_Some, !of_product_active_true. simpl.
  destruct (decide (k = rid)) as [->|Hk].
  - rewrite lookup_alter_eq, Hc. simpl. split.
    + intros [[= <-] [Hp _]]. simpl in Hp. contradiction.
    + intros [[= <-] [Hp _]]. contradiction.
  - by rewrite lookup_alter_ne.
Qed.

Lemma grades_of_store_rating pid pid' p q db :
  grades_of pid (store_rating pid' p q db) = grades_of pid db.
Proof. reflexivity. Qed.

(** ** The handlers, path by path *)

Lemma first_active_product_Some pid db p :
  first_active_product pid db = Some p ↔
  products db !! pid = Some p ∧ ProductModel.is_active p = true.
Proof.
  unfold first_active_product.
  destruct (products db !! pid) as [p'|]; [|by split; [|intros []]].
  destruct (ProductModel.is_active p') eqn:E; split.
  - by intros [= <-].
  - by intros [[= <-] _].
  - done.
  - intros [[= <-] H]. congruence.
Qed.

Lemma first_active_product_None pid db :
  first_active_product pid db = None ↔
  products db !! pid = None
  ∨ ∃ p, products db !! pid = Some p ∧ ProductModel.is_active p = false.
Proof.
  unfold first_active_product.
  destruct (products db !! pid) as [p'|]; [|by split; [left|]].
  destruct (ProductModel.is_active p') eqn:E; split.
  - done.
  - intros [|(p & [= <-] & H)]; congruence.
  - right. by exists p'.
  - done.
Qed.

Lemma first_active_review_Some rid db r :
  first_active_review rid db = Some r ↔
  r.1 = rid ∧ reviews db !! rid = Some r.2 ∧ ReviewModel.is_active r.2 = true.
Proof.
  unfold first_active_review. destruct r as [k c]. simpl.
  destruct (reviews db !! rid) as [c'|]; [|by split; [|intros (_ & ? & _)]].
  destruct (ReviewModel.is_active c') eqn:E; split.
  - by intros [= <- <-].
  - by intros (<- & [= <-] & _).
  - done.
  - intros (_ & [= <-] & H). congruence.
Qed.

Lemma first_active_review_None rid db :
  first_active_review rid db = None ↔
  reviews db !! rid = None
  ∨ ∃ c, reviews db !! rid = Some c ∧ ReviewModel.is_active c = false.
Proof.
  unfold first_active_review.
  destruct (reviews db !! rid) as [c'|]; [|by split; [left|]].
  destruct (ReviewModel.is_active c') eqn:E; split.
  - done.
  - intros [|(c & [= <-] & H)]; congruence.
  - right. by exists c'.
  - done.
Qed.

Section create_paths.
Variables (review : ReviewCreate.t) (current_user : UserModel.t) (now : Z).
Variable db : Store.

Let pid := ReviewCreate.product_id review.
Let g := ReviewCreate.grade review.

Lemma create_reviews_forbidden :
  UserModel.role current_user ≠ "buyer" →
  create_reviews review current_user now db = (db, Raise Forbidden).
Proof.
  intros Hr. unfold create_reviews.
  by rewrite bool_decide_eq_true_2.
Qed.

Lemma create_reviews_not_found :
  UserModel.role current_user = "buyer" →
  first_active_product pid db = None →
  create_reviews review current_user now db = (db, Raise NotFound).
Proof.
  intros Hr Hp. unfold create_reviews.
  rewrite bool_decide_eq_false_2 by (intros H; by apply H).
  unfold bind, query. fold pid. by rewrite Hp.
Qed.

Lemma create_reviews_unprocessable p :
  UserModel.role current_user = "buyer" →
  first_active_product pid db = Some p →
  ¬ (1 ≤ g ≤ 5) →
  create_reviews review current_user now db = (db, Raise UnprocessableInput).
Proof.
  intros Hr Hp Hg. unfold create_reviews.
  rewrite bool_decide_eq_false_2 by (intros H; by apply H).
  unfold bind, query. fold pid g. rewrite Hp.
  destruct (g <? 1) eqn:E1; [reflexivity|].
  destruct (5 <? g) eqn:E2; [reflexivity|].
  apply Z.ltb_ge in E1, E2. lia.
Qed.

Lemma create_reviews_created p :
  UserModel.role current_user = "buyer" →
  first_active_product pid db = Some p →
  1 ≤ g ≤ 5 →
  create_reviews review current_user now db
  = (store_rating pid p
       (or_zero (scalar_avg_grade pid (inserted review current_user now db)))
       (inserted review current_user now db),
     Return (next_review_id db, created review current_user now)).
Proof.
  intros Hr Hp Hg. unfold create_reviews.
  rewrite bool_decide_eq_false_2 by (intros H; by apply H).
  unfold bind, query. fold pid g. rewrite Hp.
  rewrite (proj2 (Z.ltb_ge g 1)), (proj2 (Z.ltb_ge 5 g)) by lia.
  simpl. unfold get_product. simpl.
  apply first_active_product_Some in Hp as [-> _]. reflexivity.
Qed.
End create_paths.

(** The four exits of the create handler, as one case analysis. *)
Lemma create_reviews_cases review current_user now db :
  (UserModel.role current_user ≠ "buyer"
   ∧ create_reviews review current_user now db = (db, Raise Forbidden))
  ∨ (UserModel.role current_user = "buyer"
     ∧ first_active_product (ReviewCreate.product_id review) db = None
     ∧ create_reviews review current_user now db = (db, Raise NotFound))
  ∨ (UserModel.role current_user = "buyer"
     ∧ is_Some (first_active_product (ReviewCreate.product_id review) db)
     ∧ ¬ (1 ≤ ReviewCreate.grade review ≤ 5)
     ∧ create_reviews review current_user now db = (db, Raise UnprocessableInput))
  ∨ (∃ p, UserModel.role current_user = "buyer"
     ∧ first_active_product (ReviewCreate.product_id review) db = Some p
     ∧ 1 ≤ ReviewCreate.grade review ≤ 5
     ∧ create_reviews review current_user now db
       = (store_rating (ReviewCreate.product_id review) p
            (or_zero (scalar_avg_grade (ReviewCreate.product_id review)
                        (inserted review current_user now db)))
            (inserted review current_user now db),
          Return (next_review_id db, created review current_user now))).
Proof.
  destruct (decide (UserModel.role current_user = "buyer")) as [Hr|Hr];
    [|left; eauto using create_reviews_forbidden].
  right.
  destruct (first_active_product (ReviewCreate.product_id review) db) as [p|] eqn:Hp;
    [|left; eauto using create_reviews_not_found].
  right.
  destruct (decide (1 ≤ ReviewCreate.grade review ≤ 5)) as [Hg|Hg].
  - right. exists p. eauto using create_reviews_created.
  - left. eauto 6 using create_reviews_unprocessable.
Qed.

Lemma refresh_after_update rid c db :
  reviews db !! rid = Some c →
  refresh (rid, c) (update_review_inactive rid db)
  = (rid, ReviewModel.set_is_active false c).
Proof.
  intros Hc. unfold refresh, update_review_inactive. simpl.
  by rewrite lookup_alter_eq, Hc.
Qed.

Section delete_paths.
Variables (review_id : Z) (current_user : UserModel.t).
Variable db : Store.

Lemma delete_reviews_forbidden :
  UserModel.role current_user ≠ "admin" →
  delete_reviews review_id current_user db = (db, Raise Forbidden).
Proof.
  intros Hr. unfold delete_reviews.
  by rewrite bool_decide_eq_true_2.
Qed.

Lemma delete_reviews_not_found :
  UserModel.role current_user = "admin" →
  first_active_review review_id db = None →
  delete_reviews review_id current_user db = (db, Raise NotFound).
Proof.
  intros Hr Hp. unfold delete_reviews.
  rewrite bool_decide_eq_false_2 by (intros H; by apply H).
  unfold bind, query. by rewrite Hp.
Qed.

Lemma delete_reviews_deleted c p :
  UserModel.role current_user = "admin" →
  reviews db !! review_id = Some c →
  ReviewModel.is_active c = true →
  products db !! ReviewModel.product_id c = Some p →
  delete_reviews review_id current_user db
  = (store_rating (ReviewModel.product_id c) p
       (or_zero (scalar_avg_grade (ReviewModel.product_id c)
                   (update_review_inactive review_id db)))
       (update_review_inactive review_id db),
     Return review_deleted).
Proof.
  intros Hr Hc Ha Hp. unfold delete_reviews.
  rewrite bool_decide_eq_false_2 by (intros H; by apply H).
  unfold bind, query, commit.
  assert (first_active_review review_id db = Some (review_id, c)) as ->
    by (by apply first_active_review_Some).
  rewrite (refresh_after_update _ _ _ Hc). simpl.
  unfold get_product. simpl. by rewrite Hp.
Qed.

(** The update is committed, then the product row is missing and the
    assignment to its [rating] fails. *)
Lemma delete_reviews_no_product c :
  UserModel.role current_user = "admin" →
  reviews db !! review_id = Some c →
  ReviewModel.is_active c = true →
  products db !! ReviewModel.product_id c = None →
  delete_reviews review_id current_user db
  = (update_review_inactive review_id db, Raise AttributeError).
Proof.
  intros Hr Hc Ha Hp. unfold delete_reviews.
  rewrite bool_decide_eq_false_2 by (intros H; by apply H).
  unfold bind, query, commit.
  assert (first_active_review review_id db = Some (review_id, c)) as ->
    by (by apply first_active_review_Some).
  rewrite (refresh_after_update _ _ _ Hc). simpl.
  unfold get_product. simpl. by rewrite Hp.
Qed.
End delete_paths.

(** The four exits of the delete handler. *)
Lemma delete_reviews_cases review_id current_user db :
  (UserModel.role current_user ≠ "admin"
   ∧ delete_reviews review_id current_user db = (db, Raise Forbidden))
  ∨ (UserModel.role current_user = "admin"
     ∧ first_active_review review_id db = None
     ∧ delete_reviews review_id current_user db = (db, Raise NotFound))
  ∨ (∃ c, UserModel.role current_user = "admin"
     ∧ reviews db !! review_id = Some c
     ∧ ReviewModel.is_active c = true
     ∧ products db !! ReviewModel.product_id c = None
     ∧ delete_reviews review_id current_user db
       = (update_review_inactive review_id db, Raise AttributeError))
  ∨ (∃ c p, UserModel.role current_user = "admin"
     ∧ reviews db !! review_id = Some c
     ∧ ReviewModel.is_active c = true
     ∧ products db !! ReviewModel.product_id c = Some p
     ∧ delete_reviews review_id current_user db
       = (store_rating (ReviewModel.product_id c) p
            (or_zero (scalar_avg_grade (ReviewModel.product_id c)
                        (update_review_inactive review_id db)))
            (update_review_inactive review_id db),
          Return review_deleted)).
Proof.
  destruct (decide (UserModel.role current_user = "admin")) as [Hr|Hr];
    [|left; eauto using delete_reviews_forbidden].
  right.
  destruct (first_active_review review_id db) as [[k c]|] eqn:Hc;
    [|left; eauto using delete_reviews_not_found].
  right.
  apply first_active_review_Some in Hc. simpl in Hc.
  destruct Hc as (-> & Hc & Ha).
  destruct (products db !! ReviewModel.product_id c) as [p|] eqn:Hp.
  - right. exists c, p. eauto 6 using delete_reviews_deleted.
  - left. exists c. eauto 6 using delete_reviews_no_product.
Qed.

(** The two read-only handlers. *)
Lemma get_all_reviews_eq db :
  get_all_reviews db
  = (db, Return (all (select_reviews
                        (λ r, bool_decide (ReviewModel.is_active r.2 = true)) db))).
Proof. reflexivity. Qed.

Lemma get_reviews_by_product_not_found product_id db :
  first_active_product product_id db = None →
  get_reviews_by_product product_id db = (db, Raise NotFound).
Proof.
  intros Hp. unfold get_reviews_by_product, bind, query. by rewrite Hp.
Qed.

Lemma get_reviews_by_product_found product_id db p :
  first_active_product product_id db = Some p →
  get_reviews_by_product product_id db
  = (db, Return (order_by_comment_date_desc
                   (all (select_reviews (of_product_active product_id) db)))).
Proof.
  intros Hp. unfold get_reviews_by_product, bind, query. by rewrite Hp.
Qed.

(** ** The rating invariant *)

Lemma stored_rating_is_mean pid p db :
  is_mean (ProductModel.rating
             (ProductModel.set_rating (or_zero (scalar_avg_grade pid db)) p))
          (grades_of pid db).
Proof.
  simpl. apply (is_mean_Permutation _ (active_grades pid db)).
  - apply active_grades_grades_of.
  - apply or_zero_func_avg.
Qed.

Lemma active_reviews_of_inserted_other pid review current_user now db :
  ReviewCreate.product_id review ≠ pid →
  active_reviews_of pid (inserted review current_user now db)
  ≡ₚ active_reviews_of pid db.
Proof.
  intros Hne. rewrite <- !all_select_reviews. unfold inserted.
  rewrite select_reviews_insert_other;
    [by destruct db | done | apply next_review_id_fresh].
Qed.

Lemma active_reviews_of_deactivated_other pid rid c db :
  reviews db !! rid = Some c →
  ReviewModel.product_id c ≠ pid →
  active_reviews_of pid (update_review_inactive rid db)
  ≡ₚ active_reviews_of pid db.
Proof.
  intros Hc Hne. rewrite <- !all_select_reviews.
  by rewrite (select_reviews_deactivate_other _ _ c).
Qed.

(** Storing the recomputed rating of [pid] makes the equation hold for
    [pid], and keeps it for a product whose active reviews the earlier
    write did not touch. *)
Lemma store_rating_is_mean pid p db0 db pid' :
  products db = products db0 →
  (pid' ≠ pid → active_reviews_of pid' db ≡ₚ active_reviews_of pid' db0) →
  (pid' ≠ pid → rating_is_mean pid' db0) →
  rating_is_mean pid' (store_rating pid p (or_zero (scalar_avg_grade pid db)) db).
Proof.
  intros Hps Hother Hinv p'. simpl.
  rewrite grades_of_store_rating.
  destruct (decide (pid' = pid)) as [->|Hne].
  - rewrite lookup_insert_eq. intros [= <-]. apply stored_rating_is_mean.
  - rewrite lookup_insert_ne by done. rewrite Hps. intros Hp'.
    apply (is_mean_Permutation _ (grades_of pid' db0)).
    + symmetry. apply fmap_Permutation. by apply Hother.
    + by apply Hinv.
Qed.

Lemma create_reviews_written review current_user now db db' r :
  create_reviews review current_user now db = (db', Return r) →
  is_Some (products db' !! ReviewCreate.product_id review).
Proof.
  intros Hrun.
  destruct (create_reviews_cases review current_user now db)
    as [[_ E]|[(_ & _ & E)|[(_ & _ & _ & E)|(p & _ & _ & _ & E)]]];
    rewrite E in Hrun; try discriminate.
  injection Hrun as <- <-. eexists. simpl. apply lookup_insert_eq.
Qed.

Lemma create_reviews_rating review current_user now db db' r pid' :
  create_reviews review current_user now db = (db', Return r) →
  (pid' ≠ ReviewCreate.product_id review → rating_is_mean pid' db) →
  rating_is_mean pid' db'.
Proof.
  intros Hrun Hinv.
  destruct (create_reviews_cases review current_user now db)
    as [[_ E]|[(_ & _ & E)|[(_ & _ & _ & E)|(p & _ & _ & _ & E)]]];
    rewrite E in Hrun; try discriminate.
  injection Hrun as <- <-.
  apply (store_rating_is_mean _ _ db); [done| |done].
  intros Hne. by apply active_reviews_of_inserted_other.
Qed.

Lemma create_reviews_others review current_user now db db' r pid' :
  create_reviews review current_user now db = (db', Return r) →
  pid' ≠ ReviewCreate.product_id review →
  products db' !! pid' = products db !! pid'
  ∧ active_reviews_of pid' db' ≡ₚ active_reviews_of pid' db.
Proof.
  intros Hrun Hne.
  destruct (create_reviews_cases review current_user now db)
    as [[_ E]|[(_ & _ & E)|[(_ & _ & _ & E)|(p & _ & _ & _ & E)]]];
    rewrite E in Hrun; try discriminate.
  injection Hrun as <- <-. split.
  - simpl. by rewrite lookup_insert_ne.
  - by apply (active_reviews_of_inserted_other pid' review current_user now db).
Qed.

Lemma delete_reviews_written review_id current_user db db' m :
  delete_reviews review_id current_user db = (db', Return m) →
  ∃ c, reviews db !! review_id = Some c
       ∧ is_Some (products db' !! ReviewModel.product_id c).
Proof.
  intros Hrun.
  destruct (delete_reviews_cases review_id current_user db)
    as [[_ E]|[(_ & _ & E)|[(c & _ & _ & _ & _ & E)|(c & p & _ & Hc & _ & _ & E)]]];
    rewrite E in Hrun; try discriminate.
  injection Hrun as <- <-. exists c. split; [done|].
  eexists. simpl. apply lookup_insert_eq.
Qed.

Lemma delete_reviews_rating review_id current_user db db' m c pid' :
  delete_reviews review_id current_user db = (db', Return m) →
  reviews db !! review_id = Some c →
  (pid' ≠ ReviewModel.product_id c → rating_is_mean pid' db) →
  rating_is_mean pid' db'.
Proof.
  intros Hrun Hc Hinv.
  destruct (delete_reviews_cases review_id current_user db)
    as [[_ E]|[(_ & _ & E)|[(c' & _ & _ & _ & _ & E)|(c' & p & _ & Hc' & _ & _ & E)]]];
    rewrite E in Hrun; try discriminate.
  injection Hrun as <- <-.
  rewrite Hc in Hc'. injection Hc' as <-.
  apply (store_rating_is_mean _ _ db); [done| |done].
  intros Hne. by apply (active_reviews_of_deactivated_other _ _ c).
Qed.

Lemma delete_reviews_others review_id current_user db db' m c pid' :
  delete_reviews review_id current_user db = (db', Return m) →
  reviews db !! review_id = Some c →
  pid' ≠ ReviewModel.product_id c →
  products db' !! pid' = products db !! pid'
  ∧ active_reviews_of pid' db' ≡ₚ active_reviews_of pid' db.
Proof.
  intros Hrun Hc Hne.
  destruct (delete_reviews_cases review_id current_user db)
    as [[_ E]|[(_ & _ & E)|[(c' & _ & _ & _ & _ & E)|(c' & p & _ & Hc' & _ & _ & E)]]];
    rewrite E in Hrun; try discriminate.
  injection Hrun as <- <-.
  rewrite Hc in Hc'. injection Hc' as <-. split.
  - simpl. by rewrite lookup_insert_ne.
  - by apply (active_reviews_of_deactivated_other pid' review_id c db).
Qed.

Lemma write_succeeds_written pid db db' :
  write_succeeds pid db db' → is_Some (products db' !! pid).
Proof.
  intros [review u now r Hrun ->|rid u c m Hrun Hc ->].
  - exact (create_reviews_written _ _ _ _ _ _ Hrun).
  - destruct (delete_reviews_written _ _ _ _ _ Hrun) as (c' & Hc' & Hp).
    rewrite Hc in Hc'. by injection Hc' as <-.
Qed.

Lemma write_succeeds_rating pid db db' pid' :
  write_succeeds pid db db' →
  (pid' ≠ pid → rating_is_mean pid' db) →
  rating_is_mean pid' db'.
Proof.
  intros [review u now r Hrun ->|rid u c m Hrun Hc ->].
  - exact (create_reviews_rating _ _ _ _ _ _ _ Hrun).
  - exact (delete_reviews_rating _ _ _ _ _ _ _ Hrun Hc).
Qed.

Lemma write_succeeds_others pid db db' pid' :
  write_succeeds pid db db' →
  pid' ≠ pid →
  products db' !! pid' = products db !! pid'
  ∧ active_reviews_of pid' db' ≡ₚ active_reviews_of pid' db.
Proof.
  intros [review u now r Hrun ->|rid u c m Hrun Hc ->].
  - exact (create_reviews_others _ _ _ _ _ _ _ Hrun).
  - exact (delete_reviews_others _ _ _ _ _ _ _ Hrun Hc).
Qed.

Lemma write_succeeds_consistent pid db db' :
  write_succeeds pid db db' → rating_consistent db → rating_consistent db'.
Proof.
  intros Hstep Hinv pid'.
  apply (write_succeeds_rating pid db); [done|]. intros _. apply Hinv.
Qed.

(** C1, as amended.  After every successful create or delete, the rating
    stored for the product of the written review is the arithmetic mean of
    the grades of that product's currently active reviews, as a float: a
    float nearest to the exact mean, and 0.0 when the product has no
    active review.  The rating and the active reviews of every other
    product are as before; so the equation holds afterwards for every
    product for which it held before, and for every product when it held
    for every product. *)
Theorem rating_is_mean_after_write pid db db' :
  write_succeeds pid db db' →
  (∃ p, products db' !! pid = Some p
        ∧ is_mean (ProductModel.rating p) (grades_of pid db'))
  ∧ (∀ pid', pid' ≠ pid →
             products db' !! pid' = products db !! pid'
             ∧ active_reviews_of pid' db' ≡ₚ active_reviews_of pid' db)
  ∧ (∀ pid', rating_is_mean pid' db → rating_is_mean pid' db')
  ∧ (rating_consistent db → rating_consistent db').
Proof.
  intros Hstep. split; [|split; [|split]].
  - destruct (write_succeeds_written _ _ _ Hstep) as [p Hp].
    exists p. split; [done|].
    by apply (write_succeeds_rating pid db db' pid Hstep).
  - intros pid' Hne. by apply (write_succeeds_others pid).
  - intros pid' Hinv. by apply (write_succeeds_rating pid db).
  - exact (write_succeeds_consistent _ _ _ Hstep).
Qed.

(** A call that raises keeps the invariant as well: the store is as it
    was, or (a delete whose product row is missing) a review of a product
    that is not in the table was switched off. *)
Lemma write_called_consistent db db' :
  write_called db db' → rating_consistent db → rating_consistent db'.
Proof.
  intros [(review & u & now & out & Hrun)|(rid & u & out & Hrun)] Hinv.
  - destruct (create_reviews_cases review u now db)
      as [[_ E]|[(_ & _ & E)|[(_ & _ & _ & E)|(p & _ & _ & _ & E)]]];
      rewrite E in Hrun.
    1-3: by injection Hrun as <- _.
    injection Hrun as <- _.
    apply (write_succeeds_consistent (ReviewCreate.product_id review) db);
      [|done].
    eapply create_succeeds; [exact E|reflexivity].
  - destruct (delete_reviews_cases rid u db)
      as [[_ E]|[(_ & _ & E)|[(c & _ & Hc & _ & Hp & E)|(c & p & _ & Hc & _ & _ & E)]]];
      rewrite E in Hrun.
    1-2: by injection Hrun as <- _.
    + injection Hrun as <- _. intros pid' p Hp'. simpl in Hp'.
      assert (ReviewModel.product_id c ≠ pid') as Hne by congruence.
      apply (is_mean_Permutation _ (grades_of pid' db)).
      * symmetry. apply fmap_Permutation.
        by apply (active_reviews_of_deactivated_other _ _ c).
      * by apply Hinv.
    + injection Hrun as <- _.
      apply (write_succeeds_consistent (ReviewModel.product_id c) db); [|done].
      eapply delete_succeeds; [exact E|exact Hc|reflexivity].
Qed.

(** The invariant survives any sequence of calls of the writing handlers. *)
Corollary rating_consistent_after_writes db db' :
  rtc write_called db db' →
  rating_consistent db → rating_consistent db'.
Proof.
  induction 1 as [|a b c Hstep _ IH]; [done|].
  intros Hinv. apply IH. by apply (write_called_consistent a).
Qed.

Lemma shop0_consistent : rating_consistent shop0.
Proof.
  intros pid p Hp. unfold shop0 in Hp. simpl in Hp.
  apply lookup_singleton_Some in Hp as [<- <-].
  reflexivity.
Qed.

Lemma rating_is_mean_after_write_witness :
  write_succeeds 7 shop_pair shop_thirds
  ∧ products shop_thirds !! 7
    = Some (ProductModel.Columns true (Float.Make 7505999378950827 (-52)))
  ∧ grades_of 7 shop_thirds = [2; 2; 1]
  ∧ (∃ p, products shop_thirds !! 7 = Some p
          ∧ is_mean (ProductModel.rating p) (grades_of 7 shop_thirds))
  ∧ (∀ pid', pid' ≠ 7 →
             products shop_thirds !! pid' = products shop_pair !! pid'
             ∧ active_reviews_of pid' shop_thirds
               ≡ₚ active_reviews_of pid' shop_pair)
  ∧ write_succeeds 7 shop2 shop3
  ∧ products shop3 !! 7
    = Some (ProductModel.Columns true (Float.Make 4503599627370496 (-51)))
  ∧ (∃ p, products shop3 !! 7 = Some p
          ∧ is_mean (ProductModel.rating p) (grades_of 7 shop3)).
Proof.
  assert (write_succeeds 7 shop_pair shop_thirds) as Hcreate.
  { eapply (create_succeeds 7 shop_pair shop_thirds
              (ReviewCreate.Make 7 "again" 2) buyer_b 300);
      [vm_compute; reflexivity | reflexivity]. }
  assert (write_succeeds 7 shop2 shop3) as Hdelete.
  { eapply (delete_succeeds 7 shop2 shop3 1 admin_c
              (ReviewModel.Columns "fine" 4 1 7 100 true));
      [vm_compute; reflexivity | vm_compute; reflexivity | reflexivity]. }
  destruct (rating_is_mean_after_write 7 shop_pair shop_thirds Hcreate)
    as (Ht & Ho & _ & _).
  destruct (rating_is_mean_after_write 7 shop2 shop3 Hdelete) as (Ht' & _).
  split; [exact Hcreate|]. split; [vm_compute; reflexivity|].
  split; [vm_compute; reflexivity|]. split; [exact Ht|]. split; [exact Ho|].
  split; [exact Hdelete|]. split; [vm_compute; reflexivity|]. exact Ht'.
Defined.

(** C1 as stated, for every product: in [shop_stale] an admin deletes
    review 2, the one review of product 8, and succeeds; product 7 is
    still rated 1.0 while its one active review has grade 4, and 1.0 is
    not the mean of 4. *)
Lemma rating_is_mean_counterexample :
  write_succeeds 8 shop_stale (delete_reviews 2 admin_c shop_stale).1
  ∧ (delete_reviews 2 admin_c shop_stale).2 = Return review_deleted
  ∧ products (delete_reviews 2 admin_c shop_stale).1 !! 7
    = Some (ProductModel.Columns true (Float.Make 1 0))
  ∧ grades_of 7 (delete_reviews 2 admin_c shop_stale).1 = [4]
  ∧ ¬ is_mean (Float.Make 1 0) [4]
  ∧ ¬ rating_is_mean 7 (delete_reviews 2 admin_c shop_stale).1.
Proof.
  assert (¬ is_mean (Float.Make 1 0) [4]) as Hnot.
  { intros H. apply nearest_exact in H.
    - vm_compute in H. discriminate H.
    - exists (Float.Make 4 0). split; [done|]. vm_compute. reflexivity. }
  split.
  { eapply (delete_succeeds 8 shop_stale _ 2 admin_c
              (ReviewModel.Columns "okay" 3 2 8 200 true));
      [vm_compute; reflexivity | vm_compute; reflexivity | reflexivity]. }
  split; [vm_compute; reflexivity|]. split; [vm_compute; reflexivity|].
  split; [vm_compute; reflexivity|]. split; [exact Hnot|].
  intros H. apply Hnot.
  exact (H (ProductModel.Columns true (Float.Make 1 0)) eq_refl).
Qed.

(** The scenario of the specification, step by step. *)
Example scenario_ratings :
  products shop1
  = {[ 7 := ProductModel.Columns true (Float.Make 4503599627370496 (-50)) ]}
  ∧ (Float.value (Float.Make 4503599627370496 (-50)) == 4)%Q
  ∧ products shop2
    = {[ 7 := ProductModel.Columns true (Float.Make 6755399441055744 (-51)) ]}
  ∧ (Float.value (Float.Make 6755399441055744 (-51)) == 3)%Q
  ∧ products shop3
    = {[ 7 := ProductModel.Columns true (Float.Make 4503599627370496 (-51)) ]}
  ∧ (Float.value (Float.Make 4503599627370496 (-51)) == 2)%Q
  ∧ (get_reviews_by_product 7 shop3).2
    = Return [(2, ReviewModel.Columns "so-so" 2 2 7 200 true)].
Proof. vm_compute. repeat split. Qed.

Lemma product_available_first pid db :
  product_available pid db ↔ is_Some (first_active_product pid db).
Proof.
  split.
  - intros (p & Hp & Ha). exists p. by apply first_active_product_Some.
  - intros [p Hp]. exists p. by apply first_active_product_Some.
Qed.

Lemma product_available_dec pid db :
  product_available pid db ∨ product_missing_or_inactive pid db.
Proof.
  destruct (first_active_product pid db) as [p|] eqn:E.
  - left. apply product_available_first. by exists p.
  - right. by apply first_active_product_None.
Qed.

(** ** Creating a review *)

(** C2. A buyer's request for an existing active product with a grade in
    [1,5] succeeds: a new row is stored with [is_active = true], the
    caller's id as [user_id], the clock reading as [comment_date] and the
    comment, grade and product id of the request; no other row changes;
    the rating read back from the product's row is the mean grade of the
    product's active reviews, the row is otherwise as before, and so is
    every other product; the stored review is returned. *)
Theorem create_reviews_success review current_user now db :
  UserModel.role current_user = "buyer" →
  product_available (ReviewCreate.product_id review) db →
  grade_in_range (ReviewCreate.grade review) →
  ∃ db' r p p',
    create_reviews review current_user now db = (db', Return r)
    ∧ reviews db !! ReviewModel.id r = None
    ∧ reviews db' = <[ReviewModel.id r := r.2]> (reviews db)
    ∧ ReviewModel.is_active r.2 = true
    ∧ ReviewModel.user_id r.2 = UserModel.id current_user
    ∧ ReviewModel.comment r.2 = ReviewCreate.comment review
    ∧ ReviewModel.grade r.2 = ReviewCreate.grade review
    ∧ ReviewModel.product_id r.2 = ReviewCreate.product_id review
    ∧ ReviewModel.comment_date r.2 = now
    ∧ products db !! ReviewCreate.product_id review = Some p
    ∧ products db' !! ReviewCreate.product_id review = Some p'
    ∧ ProductModel.is_active p' = ProductModel.is_active p
    ∧ is_mean (ProductModel.rating p')
              (grades_of (ReviewCreate.product_id review) db')
    ∧ (∀ pid', pid' ≠ ReviewCreate.product_id review →
               products db' !! pid' = products db !! pid').
Proof.
  intros Hr (p & Hp & Ha) Hg.
  assert (first_active_product (ReviewCreate.product_id review) db = Some p)
    as Hf by (by apply first_active_product_Some).
  pose proof (create_reviews_created _ _ now _ p Hr Hf Hg) as Hrun.
  pose proof (create_reviews_rating _ _ _ _ _ _
                (ReviewCreate.product_id review) Hrun ltac:(done)) as Hq.
  destruct (create_reviews_written _ _ _ _ _ _ Hrun) as [p' Hp'].
  eexists _, _, p, p'. split; [exact Hrun|].
  split; [apply next_review_id_fresh|]. do 7 (split; [reflexivity|]).
  split; [exact Hp|]. split; [exact Hp'|]. split.
  { simpl in Hp'. rewrite lookup_insert_eq in Hp'. by injection Hp' as <-. }
  split; [by apply Hq|].
  intros pid' Hne. simpl. by rewrite lookup_insert_ne.
Qed.

Lemma create_reviews_success_witness :
  create_reviews (ReviewCreate.Make 7 "again" 2) buyer_b 300 shop_pair
  = (shop_thirds, Return (3, ReviewModel.Columns "again" 2 2 7 300 true))
  ∧ products shop_thirds !! 7
    = Some (ProductModel.Columns true (Float.Make 7505999378950827 (-52)))
  ∧ ∃ db' r p p',
      create_reviews (ReviewCreate.Make 7 "again" 2) buyer_b 300 shop_pair
      = (db', Return r)
      ∧ reviews shop_pair !! ReviewModel.id r = None
      ∧ reviews db' = <[ReviewModel.id r := r.2]> (reviews shop_pair)
      ∧ ReviewModel.is_active r.2 = true
      ∧ ReviewModel.user_id r.2 = 2
      ∧ ReviewModel.comment r.2 = "again"
      ∧ ReviewModel.grade r.2 = 2
      ∧ ReviewModel.product_id r.2 = 7
      ∧ ReviewModel.comment_date r.2 = 300
      ∧ products shop_pair !! 7 = Some p
      ∧ products db' !! 7 = Some p'
      ∧ ProductModel.is_active p' = ProductModel.is_active p
      ∧ is_mean (ProductModel.rating p') (grades_of 7 db')
      ∧ (∀ pid', pid' ≠ 7 → products db' !! pid' = products shop_pair !! pid').
Proof.
  split; [vm_compute; reflexivity|]. split; [vm_compute; reflexivity|].
  apply (create_reviews_success (ReviewCreate.Make 7 "again" 2) buyer_b 300
           shop_pair).
  - reflexivity.
  - exists (ProductModel.Columns true (Float.Make 6755399441055744 (-52))).
    split; [vm_compute; reflexivity | reflexivity].
  - unfold grade_in_range. simpl. lia.
Defined.

(** ** Listing reviews *)

#[global] Instance comment_date_desc_total : Total comment_date_desc.
Proof. intros a b. unfold comment_date_desc. lia. Qed.

#[global] Instance comment_date_desc_trans : Transitive comment_date_desc.
Proof. intros a b c. unfold comment_date_desc. lia. Qed.

Lemma elem_of_active_reviews_of pid db (r : ReviewModel.t) :
  r ∈ active_reviews_of pid db ↔
  reviews db !! ReviewModel.id r = Some r.2
  ∧ ReviewModel.product_id r.2 = pid ∧ ReviewModel.is_active r.2 = true.
Proof.
  unfold active_reviews_of. destruct r as [k c].
  rewrite list_elem_of_filter, elem_of_map_to_list. simpl. tauto.
Qed.

Lemma order_by_comment_date_desc_sorted l :
  StronglySorted comment_date_desc (order_by_comment_date_desc l).
Proof. apply StronglySorted_merge_sort; apply _. Qed.

Lemma order_by_comment_date_desc_perm l : order_by_comment_date_desc l ≡ₚ l.
Proof. apply merge_sort_Permutation. Qed.

Lemma StronglySorted_comment_date_newest_first l :
  StronglySorted comment_date_desc l → newest_first l.
Proof.
  induction 1 as [|x l _ IH Hx]; intros i j r r' Hij Hi Hj.
  - by rewrite lookup_nil in Hi.
  - destruct j as [|j]; [lia|]. simpl in Hj. destruct i as [|i].
    + simpl in Hi. injection Hi as <-.
      apply list_elem_of_lookup_2 in Hj.
      rewrite Forall_forall in Hx. exact (Hx r' Hj).
    + simpl in Hi. apply (IH i j r r'); [lia|done..].
Qed.

(** C3. Listing the reviews of a product raises NotFound when the product
    is missing or inactive; otherwise it returns exactly the active reviews
    of that product, each once, the most recent [comment_date] first. *)
Theorem get_reviews_by_product_spec product_id db :
  (product_missing_or_inactive product_id db →
   get_reviews_by_product product_id db = (db, Raise NotFound))
  ∧ (product_available product_id db →
     ∃ l, get_reviews_by_product product_id db = (db, Return l)
          ∧ l ≡ₚ active_reviews_of product_id db
          ∧ NoDup l
          ∧ (∀ r : ReviewModel.t,
               r ∈ l ↔ reviews db !! ReviewModel.id r = Some r.2
                       ∧ ReviewModel.product_id r.2 = product_id
                       ∧ ReviewModel.is_active r.2 = true)
          ∧ newest_first l).
Proof.
  split.
  - intros Hm. apply get_reviews_by_product_not_found.
    by apply first_active_product_None.
  - intros [p Hp]%product_available_first.
    eexists. split; [by apply (get_reviews_by_product_found _ _ p)|].
    assert (order_by_comment_date_desc
              (all (select_reviews (of_product_active product_id) db))
            ≡ₚ active_reviews_of product_id db) as Hperm.
    { rewrite order_by_comment_date_desc_perm. apply all_select_reviews. }
    split; [exact Hperm|]. split; [|split].
    + rewrite Hperm. apply NoDup_filter, NoDup_map_to_list.
    + intros r. rewrite Hperm. apply elem_of_active_reviews_of.
    + apply StronglySorted_comment_date_newest_first,
        order_by_comment_date_desc_sorted.
Qed.

Lemma get_reviews_by_product_spec_witness :
  get_reviews_by_product 8 shop2 = (shop2, Raise NotFound)
  ∧ get_reviews_by_product 7 shop_dates
    = (shop_dates,
       Return [(1, ReviewModel.Columns "first" 5 1 7 300 true);
               (3, ReviewModel.Columns "third" 4 1 7 200 true);
               (2, ReviewModel.Columns "second" 3 2 7 100 true)])
  ∧ ∃ l, get_reviews_by_product 7 shop_dates = (shop_dates, Return l)
         ∧ l ≡ₚ active_reviews_of 7 shop_dates
         ∧ NoDup l
         ∧ (∀ r : ReviewModel.t,
              r ∈ l ↔ reviews shop_dates !! ReviewModel.id r = Some r.2
                      ∧ ReviewModel.product_id r.2 = 7
                      ∧ ReviewModel.is_active r.2 = true)
         ∧ newest_first l.
Proof.
  split; [|split].
  - apply (proj1 (get_reviews_by_product_spec 8 shop2)).
    left. vm_compute. reflexivity.
  - vm_compute. reflexivity.
  - apply (proj2 (get_reviews_by_product_spec 7 shop_dates)).
    exists (ProductModel.Columns true (Float.Make 4 0)).
    split.
    + vm_compute. reflexivity.
    + reflexivity.
Defined.

(** C4. Listing all reviews returns exactly the rows with
    [is_active = true], each once, and leaves the store as it was; a row
    with [is_active = false] is in the result of neither listing. *)
Theorem listings_only_active db :
  ∃ l, get_all_reviews db = (db, Return l)
       ∧ NoDup l
       ∧ (∀ r : ReviewModel.t,
            r ∈ l ↔ reviews db !! ReviewModel.id r = Some r.2
                    ∧ ReviewModel.is_active r.2 = true)
       ∧ (∀ r : ReviewModel.t, ReviewModel.is_active r.2 = false → r ∉ l)
       ∧ (∀ product_id db' l' (r : ReviewModel.t),
            get_reviews_by_product product_id db = (db', Return l') →
            ReviewModel.is_active r.2 = false → r ∉ l').
Proof.
  eexists. split; [apply get_all_reviews_eq|].
  assert (∀ r : ReviewModel.t,
            r ∈ all (select_reviews
                       (λ r, bool_decide (ReviewModel.is_active r.2 = true)) db)
            ↔ reviews db !! ReviewModel.id r = Some r.2
              ∧ ReviewModel.is_active r.2 = true) as Hin.
  { intros [k c]. unfold all, select_reviews.
    rewrite elem_of_map_to_list, map_lookup_filter_Some, bool_decide_eq_true.
    reflexivity. }
  split; [apply NoDup_map_to_list|]. split; [exact Hin|]. split.
  - intros r Hr [_ Ha]%Hin. congruence.
  - intros pid db' l' r Hrun Hr Hin'.
    destruct (product_available_dec pid db) as [Hp|Hp].
    + destruct (proj1 (product_available_first pid db) Hp) as [p Hf].
      rewrite (get_reviews_by_product_found _ _ p Hf) in Hrun.
      injection Hrun as _ <-.
      rewrite order_by_comment_date_desc_perm, all_select_reviews in Hin'.
      apply elem_of_active_reviews_of in Hin' as (_ & _ & Ha). congruence.
    + apply first_active_product_None in Hp.
      rewrite (get_reviews_by_product_not_found _ _ Hp) in Hrun. discriminate.
Qed.

Lemma listings_only_active_witness :
  ∃ l, get_all_reviews shop3 = (shop3, Return l)
       ∧ ((1, ReviewModel.Columns "fine" 4 1 7 100 false) ∉ l)
       ∧ (∀ l', get_reviews_by_product 7 shop3 = (shop3, Return l') →
                (1, ReviewModel.Columns "fine" 4 1 7 100 false) ∉ l').
Proof.
  destruct (listings_only_active shop3) as (l & E & _ & _ & Hall & Hby).
  exists l. split; [exact E|]. split.
  - apply Hall. reflexivity.
  - intros l' E'. apply (Hby 7 shop3 l' _ E'). reflexivity.
Defined.

(** ** Errors of the create handler *)

(** C5, as amended.  A create request whose grade is outside [1,5] never
    succeeds: it raises and leaves the store as it was, and for a buyer
    and an existing active product (the role and product checks come
    first) what it raises is UnprocessableInput; the grades 0, 6 and -1
    are such grades.  A grade in 1..5 passes the check: UnprocessableInput
    is not raised, and the request of a buyer for an existing active
    product succeeds. *)
Theorem create_reviews_grade_check review current_user now db :
  (¬ grade_in_range (ReviewCreate.grade review) →
   (∃ e, create_reviews review current_user now db = (db, Raise e))
   ∧ (UserModel.role current_user = "buyer" →
      product_available (ReviewCreate.product_id review) db →
      create_reviews review current_user now db
      = (db, Raise UnprocessableInput)))
  ∧ (grade_in_range (ReviewCreate.grade review) →
     (∀ db', create_reviews review current_user now db
             ≠ (db', Raise UnprocessableInput))
     ∧ (UserModel.role current_user = "buyer" →
        product_available (ReviewCreate.product_id review) db →
        ∃ db' r, create_reviews review current_user now db = (db', Return r))).
Proof.
  split; intros Hg; split.
  - destruct (create_reviews_cases review current_user now db)
      as [[_ E]|[(_ & _ & E)|[(_ & _ & _ & E)|(p & _ & _ & Hg' & _)]]];
      eauto; contradiction.
  - intros Hr [p Hp]%product_available_first.
    by apply (create_reviews_unprocessable _ _ _ _ p).
  - intros db' Hrun.
    destruct (create_reviews_cases review current_user now db)
      as [[_ E]|[(_ & _ & E)|[(_ & _ & Hg' & _)|(p & _ & _ & _ & E)]]];
      try contradiction; rewrite E in Hrun; discriminate.
  - intros Hr [p Hp]%product_available_first.
    eexists _, _. by apply (create_reviews_created _ _ _ _ p).
Qed.

Lemma shop0_product_available : product_available 7 shop0.
Proof.
  exists (ProductModel.Columns true Float.zero). split; reflexivity.
Defined.

Lemma create_reviews_grade_check_witness :
  (∀ g, g ∈ [0; 6; -1] →
        create_reviews (ReviewCreate.Make 7 "x" g) buyer_a 100 shop0
        = (shop0, Raise UnprocessableInput))
  ∧ (∃ e, create_reviews (ReviewCreate.Make 8 "x" 0) admin_c 100 shop0
          = (shop0, Raise e))
  ∧ (∀ g, g ∈ [1; 2; 3; 4; 5] →
          ∃ db' r, create_reviews (ReviewCreate.Make 7 "x" g) buyer_a 100 shop0
                   = (db', Return r)).
Proof.
  split; [|split].
  - intros g Hg.
    apply (proj1 (create_reviews_grade_check (ReviewCreate.Make 7 "x" g)
                    buyer_a 100 shop0)).
    + unfold grade_in_range. simpl.
      rewrite !elem_of_cons, elem_of_nil in Hg. lia.
    + reflexivity.
    + exact shop0_product_available.
  - apply (proj1 (create_reviews_grade_check (ReviewCreate.Make 8 "x" 0)
                    admin_c 100 shop0)).
    unfold grade_in_range. simpl. lia.
  - intros g Hg.
    apply (proj2 (create_reviews_grade_check (ReviewCreate.Make 7 "x" g)
                    buyer_a 100 shop0)).
    + unfold grade_in_range. simpl.
      rewrite !elem_of_cons, elem_of_nil in Hg. lia.
    + reflexivity.
    + exact shop0_product_available.
Defined.

(** C5 as stated, for every request: an admin sends grade 0 for the
    active product 7; the grade is outside [1,5], and the answer is
    Forbidden, not UnprocessableInput. *)
Lemma create_reviews_grade_check_counterexample :
  ¬ grade_in_range 0
  ∧ create_reviews (ReviewCreate.Make 7 "x" 0) admin_c 100 shop0
    = (shop0, Raise Forbidden)
  ∧ ¬ (∀ review current_user now db,
         ¬ grade_in_range (ReviewCreate.grade review) →
         ∃ db', create_reviews review current_user now db
                = (db', Raise UnprocessableInput)).
Proof.
  assert (¬ grade_in_range 0) as Hg by (unfold grade_in_range; lia).
  split; [exact Hg|]. split; [reflexivity|].
  intros Hall.
  destruct (Hall (ReviewCreate.Make 7 "x" 0) admin_c 100 shop0 Hg) as [db' E].
  vm_compute in E. discriminate E.
Qed.

(** C6, as amended.  A create request by a caller whose role is not
    "buyer" raises Forbidden.  A create request for a product that does
    not exist or is inactive never succeeds: it raises and leaves the
    store as it was, and for a buyer (the role check comes first) what it
    raises is NotFound. *)
Theorem create_reviews_forbidden_not_found review current_user now db :
  (UserModel.role current_user ≠ "buyer" →
   create_reviews review current_user now db = (db, Raise Forbidden))
  ∧ (product_missing_or_inactive (ReviewCreate.product_id review) db →
     (∃ e, create_reviews review current_user now db = (db, Raise e))
     ∧ (UserModel.role current_user = "buyer" →
        create_reviews review current_user now db = (db, Raise NotFound))).
Proof.
  split; [apply create_reviews_forbidden|].
  intros Hp%first_active_product_None.
  assert (UserModel.role current_user = "buyer" →
          create_reviews review current_user now db = (db, Raise NotFound))
    as Hbuyer by (intros Hr; by apply create_reviews_not_found).
  split; [|exact Hbuyer].
  destruct (decide (UserModel.role current_user = "buyer")) as [Hr|Hr].
  - exists NotFound. by apply Hbuyer.
  - exists Forbidden. by apply create_reviews_forbidden.
Qed.

Lemma create_reviews_forbidden_not_found_witness :
  create_reviews (ReviewCreate.Make 7 "x" 3) admin_c 100 shop0
  = (shop0, Raise Forbidden)
  ∧ create_reviews (ReviewCreate.Make 8 "x" 3) buyer_a 100 shop0
    = (shop0, Raise NotFound)
  ∧ create_reviews (ReviewCreate.Make 9 "x" 3) buyer_a 100 shop_closed
    = (shop_closed, Raise NotFound)
  ∧ (∃ e, create_reviews (ReviewCreate.Make 9 "x" 3) admin_c 100 shop_closed
          = (shop_closed, Raise e)).
Proof.
  assert (product_missing_or_inactive 8 shop0) as H8
    by (left; vm_compute; reflexivity).
  assert (product_missing_or_inactive 9 shop_closed) as H9
    by (right; exists (ProductModel.Columns false Float.zero); split; reflexivity).
  split; [|split; [|split]].
  - apply (proj1 (create_reviews_forbidden_not_found
                    (ReviewCreate.Make 7 "x" 3) admin_c 100 shop0)).
    simpl. discriminate.
  - apply (proj2 (create_reviews_forbidden_not_found
                    (ReviewCreate.Make 8 "x" 3) buyer_a 100 shop0) H8).
    reflexivity.
  - apply (proj2 (create_reviews_forbidden_not_found
                    (ReviewCreate.Make 9 "x" 3) buyer_a 100 shop_closed) H9).
    reflexivity.
  - apply (proj2 (create_reviews_forbidden_not_found
                    (ReviewCreate.Make 9 "x" 3) admin_c 100 shop_closed) H9).
Defined.

(** C6 as stated, for every request: an admin names product 8, which
    does not exist; the answer is Forbidden, not NotFound. *)
Lemma create_reviews_not_found_counterexample :
  product_missing_or_inactive 8 shop0
  ∧ create_reviews (ReviewCreate.Make 8 "x" 3) admin_c 100 shop0
    = (shop0, Raise Forbidden)
  ∧ ¬ (∀ review current_user now db,
         product_missing_or_inactive (ReviewCreate.product_id review) db →
         ∃ db', create_reviews review current_user now db
                = (db', Raise NotFound)).
Proof.
  assert (product_missing_or_inactive 8 shop0) as Hp
    by (left; vm_compute; reflexivity).
  split; [exact Hp|]. split; [reflexivity|].
  intros Hall.
  destruct (Hall (ReviewCreate.Make 8 "x" 3) admin_c 100 shop0 Hp) as [db' E].
  vm_compute in E. discriminate E.
Qed.

(** C9. The checks of the create handler run in the order role, product,
    grade: a non-buyer gets Forbidden whatever the product and the grade
    are; a buyer naming a missing or inactive product gets NotFound
    whatever the grade is; so UnprocessableInput is only ever reported to
    a buyer naming an existing active product. *)
Theorem create_reviews_check_order current_user now db :
  (UserModel.role current_user ≠ "buyer" →
   ∀ review, create_reviews review current_user now db = (db, Raise Forbidden))
  ∧ (UserModel.role current_user = "buyer" →
     ∀ product_id, product_missing_or_inactive product_id db →
     ∀ comment grade,
       create_reviews (ReviewCreate.Make product_id comment grade)
         current_user now db
       = (db, Raise NotFound))
  ∧ (∀ review db',
       create_reviews review current_user now db = (db', Raise UnprocessableInput) →
       UserModel.role current_user = "buyer"
       ∧ product_available (ReviewCreate.product_id review) db
       ∧ ¬ grade_in_range (ReviewCreate.grade review)).
Proof.
  split; [|split].
  - intros Hr review. by apply create_reviews_forbidden.
  - intros Hr pid Hp%first_active_product_None comment grade.
    by apply create_reviews_not_found.
  - intros review db' Hrun.
    destruct (create_reviews_cases review current_user now db)
      as [[_ E]|[(_ & _ & E)|[(Hr & Hp & Hg & E)|(p & _ & _ & _ & E)]]];
      rewrite E in Hrun; try discriminate.
    by rewrite product_available_first.
Qed.

Lemma create_reviews_check_order_witness :
  (∀ review, create_reviews review admin_c 100 shop0 = (shop0, Raise Forbidden))
  ∧ (∀ comment grade,
       create_reviews (ReviewCreate.Make 8 comment grade) buyer_a 100 shop0
       = (shop0, Raise NotFound))
  ∧ create_reviews (ReviewCreate.Make 8 "x" 0) buyer_a 100 shop0
    = (shop0, Raise NotFound)
  ∧ (UserModel.role buyer_a = "buyer"
     ∧ product_available 7 shop0
     ∧ ¬ grade_in_range 6).
Proof.
  pose proof (create_reviews_check_order admin_c 100 shop0) as (Hforbidden & _ & _).
  pose proof (create_reviews_check_order buyer_a 100 shop0) as (_ & Hmissing & Hrange).
  assert (product_missing_or_inactive 8 shop0) as H8
    by (left; vm_compute; reflexivity).
  split; [|split; [|split]].
  - apply Hforbidden. simpl. discriminate.
  - exact (Hmissing eq_refl 8 H8).
  - exact (Hmissing eq_refl 8 H8 "x" 0).
  - apply (Hrange (ReviewCreate.Make 7 "x" 6) shop0). vm_compute. reflexivity.
Defined.

(** ** Deleting a review *)

Lemma first_active_review_after_update rid db :
  first_active_review rid (update_review_inactive rid db) = None.
Proof.
  apply first_active_review_None. unfold update_review_inactive. simpl.
  rewrite lookup_alter_eq.
  destruct (reviews db !! rid) as [c|]; [right|left; done].
  by exists (ReviewModel.set_is_active false c).
Qed.

(** C7, as amended.  A delete request by a caller whose role is not
    "admin" raises Forbidden.  A delete request for a review that does not
    exist or is already inactive never succeeds: it raises and leaves the
    store as it was, and for an admin (the role check comes first) what it
    raises is NotFound.  So after a successful delete, the same request
    again raises NotFound and changes nothing. *)
Theorem delete_reviews_errors review_id current_user db :
  (UserModel.role current_user ≠ "admin" →
   delete_reviews review_id current_user db = (db, Raise Forbidden))
  ∧ (review_missing_or_inactive review_id db →
     (∃ e, delete_reviews review_id current_user db = (db, Raise e))
     ∧ (UserModel.role current_user = "admin" →
        delete_reviews review_id current_user db = (db, Raise NotFound)))
  ∧ (∀ db' m,
       delete_reviews review_id current_user db = (db', Return m) →
       review_missing_or_inactive review_id db'
       ∧ delete_reviews review_id current_user db' = (db', Raise NotFound)).
Proof.
  split; [apply delete_reviews_forbidden|]. split.
  - intros Hm%first_active_review_None.
    assert (UserModel.role current_user = "admin" →
            delete_reviews review_id current_user db = (db, Raise NotFound))
      as Hadmin by (intros Hr; by apply delete_reviews_not_found).
    split; [|exact Hadmin].
    destruct (decide (UserModel.role current_user = "admin")) as [Hr|Hr].
    + exists NotFound. by apply Hadmin.
    + exists Forbidden. by apply delete_reviews_forbidden.
  - intros db' m Hrun.
    destruct (delete_reviews_cases review_id current_user db)
      as [[_ E]|[(_ & _ & E)|[(c & _ & _ & _ & _ & E)|(c & p & Hr & _ & _ & _ & E)]]];
      rewrite E in Hrun; try discriminate.
    injection Hrun as <- _.
    pose proof (first_active_review_after_update review_id db) as Hnone.
    split.
    + by apply first_active_review_None in Hnone.
    + by apply delete_reviews_not_found.
Qed.

Lemma delete_reviews_errors_witness :
  delete_reviews 1 buyer_a shop2 = (shop2, Raise Forbidden)
  ∧ delete_reviews 5 admin_c shop2 = (shop2, Raise NotFound)
  ∧ delete_reviews 1 admin_c shop3 = (shop3, Raise NotFound)
  ∧ (review_missing_or_inactive 1 shop3
     ∧ delete_reviews 1 admin_c shop3 = (shop3, Raise NotFound)).
Proof.
  split; [|split; [|split]].
  - apply (proj1 (delete_reviews_errors 1 buyer_a shop2)).
    simpl. discriminate.
  - apply (proj1 (proj2 (delete_reviews_errors 5 admin_c shop2))).
    + left. vm_compute. reflexivity.
    + reflexivity.
  - apply (proj1 (proj2 (delete_reviews_errors 1 admin_c shop3))).
    + right. exists (ReviewModel.Columns "fine" 4 1 7 100 false).
      split; [vm_compute; reflexivity | reflexivity].
    + reflexivity.
  - apply (proj2 (proj2 (delete_reviews_errors 1 admin_c shop2))
             shop3 review_deleted).
    vm_compute. reflexivity.
Defined.

(** C7 as stated, for every request: a buyer asks to delete review 5,
    which does not exist; the answer is Forbidden, not NotFound. *)
Lemma delete_reviews_not_found_counterexample :
  review_missing_or_inactive 5 shop2
  ∧ delete_reviews 5 buyer_a shop2 = (shop2, Raise Forbidden)
  ∧ ¬ (∀ review_id current_user db,
         review_missing_or_inactive review_id db →
         ∃ db', delete_reviews review_id current_user db
                = (db', Raise NotFound)).
Proof.
  assert (review_missing_or_inactive 5 shop2) as Hr
    by (left; vm_compute; reflexivity).
  split; [exact Hr|]. split; [reflexivity|].
  intros Hall.
  destruct (Hall 5 buyer_a shop2 Hr) as [db' E].
  vm_compute in E. discriminate E.
Qed.

(** C8. A successful delete returns the acknowledgment and changes only
    the [is_active] column of the row it names, which becomes false, and
    the [rating] of the product that row belongs to: the row keeps its
    key, comment, grade, user, product and date, and every other review
    and every other product is as before. *)
Theorem delete_reviews_frame review_id current_user db db' m :
  delete_reviews review_id current_user db = (db', Return m) →
  m = [("message", "Review deleted")]
  ∧ ∃ c c' p p',
      reviews db !! review_id = Some c
      ∧ reviews db' !! review_id = Some c'
      ∧ ReviewModel.is_active c = true
      ∧ ReviewModel.is_active c' = false
      ∧ ReviewModel.comment c' = ReviewModel.comment c
      ∧ ReviewModel.grade c' = ReviewModel.grade c
      ∧ ReviewModel.user_id c' = ReviewModel.user_id c
      ∧ ReviewModel.product_id c' = ReviewModel.product_id c
      ∧ ReviewModel.comment_date c' = ReviewModel.comment_date c
      ∧ (∀ k, k ≠ review_id → reviews db' !! k = reviews db !! k)
      ∧ products db !! ReviewModel.product_id c = Some p
      ∧ products db' !! ReviewModel.product_id c = Some p'
      ∧ ProductModel.is_active p' = ProductModel.is_active p
      ∧ (∀ k, k ≠ ReviewModel.product_id c →
              products db' !! k = products db !! k).
Proof.
  intros Hrun.
  destruct (delete_reviews_cases review_id current_user db)
    as [[_ E]|[(_ & _ & E)|[(c & _ & _ & _ & _ & E)|(c & p & _ & Hc & Ha & Hp & E)]]];
    rewrite E in Hrun; try discriminate.
  injection Hrun as <- <-. split; [reflexivity|].
  exists c, (ReviewModel.set_is_active false c), p. eexists.
  split; [exact Hc|]. split.
  { simpl. by rewrite lookup_alter_eq, Hc. }
  split; [exact Ha|]. do 6 (split; [reflexivity|]). split.
  { intros k Hk. simpl. by rewrite lookup_alter_ne. }
  split; [exact Hp|]. split.
  { simpl. apply lookup_insert_eq. }
  split; [reflexivity|].
  intros k Hk. simpl. by rewrite lookup_insert_ne.
Qed.

Lemma delete_reviews_frame_witness :
  review_deleted = [("message", "Review deleted")]
  ∧ ∃ c c' p p',
      reviews shop2 !! 1 = Some c
      ∧ reviews shop3 !! 1 = Some c'
      ∧ ReviewModel.is_active c = true
      ∧ ReviewModel.is_active c' = false
      ∧ ReviewModel.comment c' = ReviewModel.comment c
      ∧ ReviewModel.grade c' = ReviewModel.grade c
      ∧ ReviewModel.user_id c' = ReviewModel.user_id c
      ∧ ReviewModel.product_id c' = ReviewModel.product_id c
      ∧ ReviewModel.comment_date c' = ReviewModel.comment_date c
      ∧ (∀ k, k ≠ 1 → reviews shop3 !! k = reviews shop2 !! k)
      ∧ products shop2 !! ReviewModel.product_id c = Some p
      ∧ products shop3 !! ReviewModel.product_id c = Some p'
      ∧ ProductModel.is_active p' = ProductModel.is_active p
      ∧ (∀ k, k ≠ ReviewModel.product_id c →
              products shop3 !! k = products shop2 !! k).
Proof.
  apply (delete_reviews_frame 1 admin_c shop2 shop3 review_deleted).
  vm_compute. reflexivity.
Defined.

(** ** Error paths and the store *)

(** C10. A create that raises does so with Forbidden, NotFound or
    UnprocessableInput and leaves the store exactly as it was; so does a
    delete that raises one of these three, and a listing by product that
    raises NotFound; the two listings never change the store, whatever
    they return. *)
Theorem failures_leave_store_unchanged db :
  (∀ review current_user now db' e,
     create_reviews review current_user now db = (db', Raise e) →
     (e = Forbidden ∨ e = NotFound ∨ e = UnprocessableInput) ∧ db' = db)
  ∧ (∀ review_id current_user db' e,
       delete_reviews review_id current_user db = (db', Raise e) →
       e = Forbidden ∨ e = NotFound ∨ e = UnprocessableInput →
       db' = db)
  ∧ (∀ product_id db' out,
       get_reviews_by_product product_id db = (db', out) →
       db' = db ∧ ∀ e, out = Raise e → e = NotFound)
  ∧ (∀ db' out, get_all_reviews db = (db', out) → db' = db).
Proof.
  split; [|split; [|split]].
  - intros review u now db' e Hrun.
    destruct (create_reviews_cases review u now db)
      as [[_ E]|[(_ & _ & E)|[(_ & _ & _ & E)|(p & _ & _ & _ & E)]]];
      rewrite E in Hrun; try discriminate;
      injection Hrun as <- <-; auto.
  - intros rid u db' e Hrun He.
    destruct (delete_reviews_cases rid u db)
      as [[_ E]|[(_ & _ & E)|[(c & _ & _ & _ & _ & E)|(c & p & _ & _ & _ & _ & E)]]];
      rewrite E in Hrun; try discriminate;
      injection Hrun as <- <-; [done..|].
    destruct He as [He|[He|He]]; discriminate.
  - intros pid db' out Hrun.
    destruct (first_active_product pid db) as [p|] eqn:Hf.
    + rewrite (get_reviews_by_product_found _ _ p Hf) in Hrun.
      injection Hrun as <- <-. split; [done|]. intros e. discriminate.
    + rewrite (get_reviews_by_product_not_found _ _ Hf) in Hrun.
      injection Hrun as <- <-. split; [done|]. by intros e [= <-].
  - intros db' out Hrun. rewrite get_all_reviews_eq in Hrun.
    by injection Hrun as <-.
Qed.

Lemma failures_leave_store_unchanged_witness :
  (create_reviews (ReviewCreate.Make 7 "x" 3) admin_c 100 shop2).1 = shop2
  ∧ (create_reviews (ReviewCreate.Make 8 "x" 3) buyer_a 100 shop2).1 = shop2
  ∧ (create_reviews (ReviewCreate.Make 7 "x" 6) buyer_a 100 shop2).1 = shop2
  ∧ (delete_reviews 1 buyer_a shop2).1 = shop2
  ∧ (delete_reviews 5 admin_c shop2).1 = shop2
  ∧ (get_reviews_by_product 8 shop2).1 = shop2
  ∧ (get_reviews_by_product 7 shop2).1 = shop2
  ∧ (get_all_reviews shop2).1 = shop2.
Proof.
  destruct (failures_leave_store_unchanged shop2)
    as (Hcreate & Hdelete & Hby & Hall).
  repeat apply conj.
  - apply (Hcreate (ReviewCreate.Make 7 "x" 3) admin_c 100 _ Forbidden).
    vm_compute. reflexivity.
  - apply (Hcreate (ReviewCreate.Make 8 "x" 3) buyer_a 100 _ NotFound).
    vm_compute. reflexivity.
  - apply (Hcreate (ReviewCreate.Make 7 "x" 6) buyer_a 100 _ UnprocessableInput).
    vm_compute. reflexivity.
  - apply (Hdelete 1 buyer_a _ Forbidden); [vm_compute; reflexivity | by left].
  - apply (Hdelete 5 admin_c _ NotFound);
      [vm_compute; reflexivity | by right; left].
  - apply (Hby 8 _ (get_reviews_by_product 8 shop2).2).
    by destruct (get_reviews_by_product 8 shop2).
  - apply (Hby 7 _ (get_reviews_by_product 7 shop2).2).
    by destruct (get_reviews_by_product 7 shop2).
  - apply (Hall _ (get_all_reviews shop2).2).
    by destruct (get_all_reviews shop2).
Defined.

(** * Further properties of the handlers *)

(** ** What a call of a writing handler can do to the store *)

Lemma write_called_shape db db' :
  write_called db db' →
  db' = db
  ∨ (∃ review current_user now p q,
       first_active_product (ReviewCreate.product_id review) db = Some p
       ∧ grade_in_range (ReviewCreate.grade review)
       ∧ db' = store_rating (ReviewCreate.product_id review) p q
                 (inserted review current_user now db))
  ∨ (∃ rid c,
       reviews db !! rid = Some c
       ∧ ReviewModel.is_active c = true
       ∧ products db !! ReviewModel.product_id c = None
       ∧ db' = update_review_inactive rid db)
  ∨ (∃ rid c p q,
       reviews db !! rid = Some c
       ∧ ReviewModel.is_active c = true
       ∧ products db !! ReviewModel.product_id c = Some p
       ∧ db' = store_rating (ReviewModel.product_id c) p q
                 (update_review_inactive rid db)).
Proof.
  intros [(review & u & now & out & Hrun)|(rid & u & out & Hrun)].
  - destruct (create_reviews_cases review u now db)
      as [[_ E]|[(_ & _ & E)|[(_ & _ & _ & E)|(p & _ & Hp & Hg & E)]]];
      rewrite E in Hrun; injection Hrun as <- _; [by left..|].
    right; left. eauto 10.
  - destruct (delete_reviews_cases rid u db)
      as [[_ E]|[(_ & _ & E)|[(c & _ & Hc & Ha & Hp & E)|(c & p & _ & Hc & Ha & Hp & E)]]];
      rewrite E in Hrun; injection Hrun as <- _; [by left..| |].
    + right; right; left. eauto 10.
    + right; right; right. eauto 10.
Qed.

Lemma write_succeeds_called pid db db' :
  write_succeeds pid db db' → write_called db db'.
Proof.
  intros [review u now r Hrun _|rid u c m Hrun _ _].
  - left. eauto.
  - right. eauto.
Qed.

Lemma reviews_inserted_old review current_user now db k c :
  reviews db !! k = Some c →
  reviews (inserted review current_user now db) !! k = Some c.
Proof.
  intros Hk. unfold inserted. simpl.
  rewrite lookup_insert_ne; [done|].
  intros <-. by rewrite next_review_id_fresh in Hk.
Qed.

Lemma reviews_deactivated rid db k c :
  reviews db !! k = Some c →
  reviews (update_review_inactive rid db) !! k
  = Some (if decide (k = rid) then ReviewModel.set_is_active false c else c).
Proof.
  intros Hk. unfold update_review_inactive. simpl.
  destruct (decide (k = rid)) as [->|Hne].
  - by rewrite lookup_alter_eq, Hk.
  - by rewrite lookup_alter_ne.
Qed.

(** X1. No call of create or delete, whatever its outcome, removes a
    review, changes its comment, grade, user, product or date, or turns
    an inactive review active again: a stored row is afterwards stored
    under the same key, unchanged or with [is_active] switched from true
    to false. *)
Theorem reviews_kept_never_revived db db' k c :
  write_called db db' →
  reviews db !! k = Some c →
  ∃ c', reviews db' !! k = Some c'
        ∧ (c' = c
           ∨ (ReviewModel.is_active c = true
              ∧ c' = ReviewModel.set_is_active false c))
        ∧ same_content c c'
        ∧ (ReviewModel.is_active c = false → ReviewModel.is_active c' = false).
Proof.
  intros Hcall Hk.
  assert (∀ c', c' = c ∨ (ReviewModel.is_active c = true
                          ∧ c' = ReviewModel.set_is_active false c) →
                (c' = c ∨ (ReviewModel.is_active c = true
                           ∧ c' = ReviewModel.set_is_active false c))
                ∧ same_content c c'
                ∧ (ReviewModel.is_active c = false →
                   ReviewModel.is_active c' = false)) as Hfill.
  { intros c' H. split; [exact H|].
    destruct H as [->|[Ha ->]]; (split; [by repeat split|]);
      [done|by rewrite Ha]. }
  assert (∀ rid, ∃ c',
            reviews (update_review_inactive rid db) !! k = Some c'
            ∧ (c' = c ∨ (ReviewModel.is_active c = true
                         ∧ c' = ReviewModel.set_is_active false c))) as Hoff.
  { intros rid. eexists. split; [by apply reviews_deactivated|].
    destruct (decide (k = rid)) as [->|]; [|by left].
    destruct (ReviewModel.is_active c) eqn:Ha; [by right|].
    left. by destruct c; simpl in *; subst. }
  destruct (write_called_shape _ _ Hcall)
    as [->|[(review & u & now & p & q & _ & _ & ->)
           |[(rid & c0 & _ & _ & _ & ->)|(rid & c0 & p & q & _ & _ & _ & ->)]]].
  - exists c. split; [done|]. apply Hfill. by left.
  - exists c. split; [by apply reviews_inserted_old|]. apply Hfill. by left.
  - destruct (Hoff rid) as (c' & Hc' & H). exists c'. split; [done|].
    by apply Hfill.
  - destruct (Hoff rid) as (c' & Hc' & H). exists c'. split; [done|].
    by apply Hfill.
Qed.

(** X2. No call of create or delete, whatever its outcome, adds or removes
    a product or changes a product's [is_active]: only ratings are
    written. *)
Theorem products_only_rated db db' pid :
  write_called db db' →
  ProductModel.is_active <$> products db' !! pid
  = ProductModel.is_active <$> products db !! pid.
Proof.
  intros Hcall.
  assert (∀ pid' p q (db0 : Store),
            products db0 = products db →
            products db !! pid' = Some p →
            ProductModel.is_active <$> products (store_rating pid' p q db0) !! pid
            = ProductModel.is_active <$> products db !! pid) as Hrate.
  { intros pid' p q db0 Hps Hp. simpl. rewrite Hps.
    destruct (decide (pid = pid')) as [->|Hne].
    - by rewrite lookup_insert_eq, Hp.
    - by rewrite lookup_insert_ne. }
  destruct (write_called_shape _ _ Hcall)
    as [->|[(review & u & now & p & q & Hp & _ & ->)
           |[(rid & c0 & _ & _ & _ & ->)|(rid & c0 & p & q & _ & _ & Hp & ->)]]].
  - done.
  - apply Hrate; [done|]. by apply first_active_product_Some in Hp as [Hp _].
  - done.
  - by apply Hrate.
Qed.


(** ** Grades and the range of ratings *)

Lemma sum_grades_bounds gs :
  Forall grade_in_range gs →
  Z.of_nat (length gs) ≤ sum_grades gs ≤ 5 * Z.of_nat (length gs).
Proof.
  unfold grade_in_range, sum_grades.
  induction 1 as [|g gs Hg _ IH]; simpl length; simpl foldr; lia.
Qed.

Lemma exact_mean_bounds gs :
  Forall grade_in_range gs → gs ≠ [] → (1 <= exact_mean gs <= 5)%Q.
Proof.
  intros Hgs Hne. apply sum_grades_bounds in Hgs.
  assert (0 < Z.of_nat (length gs)) as Hlen
    by (destruct gs; [done|simpl; lia]).
  assert (0 < inject_Z (Z.of_nat (length gs)))%Q as Hpos
    by (rewrite (Zlt_Qlt 0) in Hlen; exact Hlen).
  unfold exact_mean. rewrite total_sum_grades. split.
  - apply Qle_shift_div_l; [exact Hpos|].
    rewrite Qmult_1_l, <- Zle_Qle. lia.
  - apply Qle_shift_div_r; [exact Hpos|].
    change 5%Q with (inject_Z 5). rewrite <- inject_Z_mult, <- Zle_Qle. lia.
Qed.

(** A float mean of grades within [1,5] is within [1,5]: 1 and 5 are
    floats, and a nearest float does not pass a float. *)
Lemma is_mean_bounds r gs :
  Forall grade_in_range gs → gs ≠ [] → is_mean r gs → (1 <= r <= 5)%Q.
Proof.
  intros Hgs Hne Hr. destruct (exact_mean_bounds gs Hgs Hne) as [Hlo Hhi].
  destruct gs as [|g gs]; [done|]. unfold is_mean in Hr. split.
  - apply (nearest_lower _ _ _ Hr); [|exact Hlo].
    by apply (double_inject_Z 1).
  - apply (nearest_upper _ _ _ Hr); [|exact Hhi].
    by apply (double_inject_Z 5).
Qed.

Lemma active_grades_in_range pid db :
  grades_in_range db →
  Forall grade_in_range
    ((λ r : ReviewModel.t, ReviewModel.grade r.2) <$> active_reviews_of pid db).
Proof.
  intros Hdb. apply Forall_fmap, Forall_forall. intros [k c] Hin.
  apply elem_of_active_reviews_of in Hin as (Hk & _ & _). simpl in *.
  by apply (Hdb k).
Qed.

Lemma write_called_grades db db' :
  write_called db db' → grades_in_range db → grades_in_range db'.
Proof.
  intros Hcall Hdb.
  assert (∀ rid, grades_in_range (update_review_inactive rid db)) as Hoff.
  { intros rid k c' Hk. unfold update_review_inactive in Hk. simpl in Hk.
    destruct (decide (k = rid)) as [->|Hne].
    - rewrite lookup_alter_eq in Hk.
      destruct (reviews db !! rid) as [c|] eqn:Hc; [|done].
      injection Hk as <-. simpl. by apply (Hdb rid).
    - rewrite lookup_alter_ne in Hk by done. by apply (Hdb k). }
  destruct (write_called_shape _ _ Hcall)
    as [->|[(review & u & now & p & q & _ & Hg & ->)
           |[(rid & c0 & _ & _ & _ & ->)|(rid & c0 & p & q & _ & _ & _ & ->)]]].
  - done.
  - intros k c' Hk. simpl in Hk.
    destruct (decide (k = next_review_id db)) as [->|Hne].
    + rewrite lookup_insert_eq in Hk. by injection Hk as <-.
    + rewrite lookup_insert_ne in Hk by done. by apply (Hdb k).
  - apply Hoff.
  - intros k c' Hk. by apply (Hoff rid k).
Qed.

(** X3. The grades in the store stay within [1,5] under every call of
    create or delete, and so under every sequence of calls: the create
    handler stores only a grade that passed its check, and no handler
    rewrites a grade. *)
Theorem grades_stay_in_range db db' :
  rtc write_called db db' → grades_in_range db → grades_in_range db'.
Proof.
  induction 1 as [|a b c Hstep _ IH]; [done|].
  intros Hdb. apply IH. by apply (write_called_grades a).
Qed.

(** X4. When the stored grades are within [1,5], the rating a successful
    create or delete writes is 0 if the product is left without active
    reviews, and lies within [1,5] otherwise. *)
Theorem rating_within_grades pid db db' :
  write_succeeds pid db db' →
  grades_in_range db →
  ∃ p, products db' !! pid = Some p
       ∧ ((active_reviews_of pid db' = [] ∧ (ProductModel.rating p == 0)%Q)
          ∨ (active_reviews_of pid db' ≠ []
             ∧ (1 <= ProductModel.rating p <= 5)%Q)).
Proof.
  intros Hstep Hdb.
  assert (grades_in_range db') as Hdb'.
  { apply (write_called_grades db); [|done]. by apply (write_succeeds_called pid). }
  destruct (write_succeeds_written _ _ _ Hstep) as [p Hp].
  exists p. split; [done|].
  pose proof (write_succeeds_rating pid db db' pid Hstep
                ltac:(done) p Hp) as Hq.
  pose proof (active_grades_in_range pid db' Hdb') as Hgs.
  unfold grades_of in Hq.
  destruct (active_reviews_of pid db') as [|r rs] eqn:E.
  - left. by split.
  - right. split; [done|]. by apply (is_mean_bounds _ _ Hgs).
Qed.

(** ** How a write changes the active reviews of its product *)

Lemma active_reviews_of_inserted review current_user now db :
  active_reviews_of (ReviewCreate.product_id review)
    (inserted review current_user now db)
  ≡ₚ (next_review_id db, created review current_user now)
     :: active_reviews_of (ReviewCreate.product_id review) db.
Proof.
  unfold active_reviews_of, inserted. simpl.
  rewrite map_to_list_insert by apply next_review_id_fresh.
  by rewrite filter_cons_True.
Qed.

Lemma active_reviews_of_deactivated rid c db :
  reviews db !! rid = Some c →
  ReviewModel.is_active c = true →
  active_reviews_of (ReviewModel.product_id c) db
  ≡ₚ (rid, c) :: active_reviews_of (ReviewModel.product_id c)
                   (update_review_inactive rid db).
Proof.
  intros Hc Ha. unfold active_reviews_of, update_review_inactive. simpl.
  rewrite (alter_alt_Some _ _ _ _ Hc), <- insert_delete_eq.
  rewrite (map_to_list_insert (delete rid (reviews db)))
    by apply lookup_delete_eq.
  rewrite filter_cons_False by (simpl; intros [_ [=]]).
  rewrite <- (map_to_list_delete _ _ _ Hc) at 1.
  by rewrite filter_cons_True.
Qed.

Lemma create_reviews_Return review current_user now db db' r :
  create_reviews review current_user now db = (db', Return r) →
  ∃ p q,
    products db !! ReviewCreate.product_id review = Some p
    ∧ r = (next_review_id db, created review current_user now)
    ∧ db' = store_rating (ReviewCreate.product_id review) p q
              (inserted review current_user now db).
Proof.
  intros Hrun.
  destruct (create_reviews_cases review current_user now db)
    as [[_ E]|[(_ & _ & E)|[(_ & _ & _ & E)|(p & _ & Hp & _ & E)]]];
    rewrite E in Hrun; try discriminate.
  injection Hrun as <- <-.
  apply first_active_product_Some in Hp as [Hp _]. eauto.
Qed.

Lemma delete_reviews_Return review_id current_user db db' m :
  delete_reviews review_id current_user db = (db', Return m) →
  ∃ c p q,
    UserModel.role current_user = "admin"
    ∧ reviews db !! review_id = Some c
    ∧ ReviewModel.is_active c = true
    ∧ products db !! ReviewModel.product_id c = Some p
    ∧ db' = store_rating (ReviewModel.product_id c) p q
              (update_review_inactive review_id db).
Proof.
  intros Hrun.
  destruct (delete_reviews_cases review_id current_user db)
    as [[_ E]|[(_ & _ & E)|[(c & _ & _ & _ & _ & E)|(c & p & Hr & Hc & Ha & Hp & E)]]];
    rewrite E in Hrun; try discriminate.
  injection Hrun as <- _. eauto 10.
Qed.

(** X5. A successful create adds exactly the returned review to the active
    reviews of its product, and the rating it writes is the mean, as a
    float, of the request's grade together with the grades that were
    active before. *)
Theorem create_reviews_adds_one review current_user now db db' r :
  create_reviews review current_user now db = (db', Return r) →
  active_reviews_of (ReviewCreate.product_id review) db'
  ≡ₚ r :: active_reviews_of (ReviewCreate.product_id review) db
  ∧ ∃ p, products db' !! ReviewCreate.product_id review = Some p
         ∧ is_mean (ProductModel.rating p)
                   (ReviewCreate.grade review
                    :: grades_of (ReviewCreate.product_id review) db).
Proof.
  intros Hrun.
  pose proof (create_reviews_rating _ _ _ _ _ _
                (ReviewCreate.product_id review) Hrun ltac:(done)) as Hq.
  destruct (create_reviews_written _ _ _ _ _ _ Hrun) as [p' Hp'].
  apply create_reviews_Return in Hrun as (p & q & _ & -> & ->).
  assert (active_reviews_of (ReviewCreate.product_id review)
            (store_rating (ReviewCreate.product_id review) p q
               (inserted review current_user now db))
          ≡ₚ (next_review_id db, created review current_user now)
             :: active_reviews_of (ReviewCreate.product_id review) db) as Hperm
    by apply active_reviews_of_inserted.
  split; [exact Hperm|]. exists p'. split; [done|].
  assert (grades_of (ReviewCreate.product_id review)
            (store_rating (ReviewCreate.product_id review) p q
               (inserted review current_user now db))
          ≡ₚ ReviewCreate.grade review
             :: grades_of (ReviewCreate.product_id review) db) as Hgrades.
  { unfold grades_of. rewrite Hperm. reflexivity. }
  exact (is_mean_Permutation _ _ _ Hgrades (Hq p' Hp')).
Qed.

(** X6. A successful delete removes exactly the named review from the
    active reviews of its product. *)
Theorem delete_reviews_removes_one review_id current_user db db' m c :
  delete_reviews review_id current_user db = (db', Return m) →
  reviews db !! review_id = Some c →
  active_reviews_of (ReviewModel.product_id c) db
  ≡ₚ (review_id, c) :: active_reviews_of (ReviewModel.product_id c) db'.
Proof.
  intros Hrun Hc.
  apply delete_reviews_Return in Hrun as (c' & p & q & _ & Hc' & Ha & _ & ->).
  rewrite Hc in Hc'. injection Hc' as <-.
  by apply active_reviews_of_deactivated.
Qed.

(** X7. The first review of a product sets its rating to that review's
    grade: for a buyer, an existing active product without active reviews
    and a grade in [1,5], create succeeds and the rating is the grade. *)
Theorem first_review_sets_rating review current_user now db :
  UserModel.role current_user = "buyer" →
  product_available (ReviewCreate.product_id review) db →
  grade_in_range (ReviewCreate.grade review) →
  active_reviews_of (ReviewCreate.product_id review) db = [] →
  ∃ db' r p,
    create_reviews review current_user now db = (db', Return r)
    ∧ products db' !! ReviewCreate.product_id review = Some p
    ∧ (ProductModel.rating p == inject_Z (ReviewCreate.grade review))%Q.
Proof.
  intros Hr [p0 Hp0]%product_available_first Hg Hnone.
  pose proof (create_reviews_created _ _ now _ p0 Hr Hp0 Hg) as Hrun.
  pose proof (create_reviews_rating _ _ _ _ _ _
                (ReviewCreate.product_id review) Hrun ltac:(done)) as Hq.
  destruct (create_reviews_written _ _ _ _ _ _ Hrun) as [p Hp].
  eexists _, _, p. split; [exact Hrun|]. split; [exact Hp|].
  specialize (Hq p Hp).
  apply (is_mean_Permutation _ _ [ReviewCreate.grade review]) in Hq.
  - unfold is_mean in Hq. apply nearest_exact in Hq.
    + rewrite Hq. unfold exact_mean, total. simpl.
      change (inject_Z (Z.of_nat 1)) with 1%Q.
      unfold Qdiv. change (/ 1)%Q with 1%Q. apply Qmult_1_r.
    + exists (Float.Make (ReviewCreate.grade review) 0). split.
      * unfold Float.fits, grade_in_range in *. simpl. lia.
      * unfold Float.value, exact_mean, total. simpl.
        change (inject_Z (Z.of_nat 1)) with 1%Q.
        unfold Qdiv. change (/ 1)%Q with 1%Q. reflexivity.
  - change [ReviewCreate.grade review]
      with ((λ r : ReviewModel.t, ReviewModel.grade r.2)
              <$> [(next_review_id db, created review current_user now)]).
    apply fmap_Permutation.
    change (active_reviews_of (ReviewCreate.product_id review)
              (inserted review current_user now db)
            ≡ₚ [(next_review_id db, created review current_user now)]).
    by rewrite active_reviews_of_inserted, Hnone.
Qed.

(** X8. Deleting the only active review of a product resets the product's
    rating to 0. *)
Theorem last_review_resets_rating review_id current_user db db' m c :
  delete_reviews review_id current_user db = (db', Return m) →
  reviews db !! review_id = Some c →
  active_reviews_of (ReviewModel.product_id c) db = [(review_id, c)] →
  ∃ p, products db' !! ReviewModel.product_id c = Some p
       ∧ (ProductModel.rating p == 0)%Q.
Proof.
  intros Hrun Hc Honly.
  pose proof (delete_reviews_rating _ _ _ _ _ _
                (ReviewModel.product_id c) Hrun Hc ltac:(done)) as Hq.
  destruct (delete_reviews_written _ _ _ _ _ Hrun) as (c' & Hc' & [p Hp]).
  rewrite Hc in Hc'. injection Hc' as <-.
  exists p. split; [done|]. specialize (Hq p Hp).
  apply delete_reviews_Return in Hrun as (c' & p0 & q & _ & Hc' & Ha & _ & ->).
  rewrite Hc in Hc'. injection Hc' as <-.
  pose proof (active_reviews_of_deactivated _ _ _ Hc Ha) as Hperm.
  rewrite Honly in Hperm. apply Permutation_cons_inv, Permutation_nil in Hperm.
  unfold grades_of in Hq.
  change (active_reviews_of (ReviewModel.product_id c)
            (store_rating (ReviewModel.product_id c) p0 q
               (update_review_inactive review_id db)))
    with (active_reviews_of (ReviewModel.product_id c)
            (update_review_inactive review_id db)) in Hq.
  by rewrite Hperm in Hq.
Qed.

(** ** When the writing handlers succeed, and the crash of delete *)

(** X9. Create succeeds exactly when the caller is a buyer, the product
    exists and is active, and the grade is within [1,5]. *)
Theorem create_reviews_succeeds_iff review current_user now db :
  (∃ db' r, create_reviews review current_user now db = (db', Return r))
  ↔ UserModel.role current_user = "buyer"
    ∧ product_available (ReviewCreate.product_id review) db
    ∧ grade_in_range (ReviewCreate.grade review).
Proof.
  split.
  - intros (db' & r & Hrun).
    destruct (create_reviews_cases review current_user now db)
      as [[_ E]|[(_ & _ & E)|[(_ & _ & _ & E)|(p & Hr & Hp & Hg & E)]]];
      rewrite E in Hrun; try discriminate.
    split; [done|]. split; [|done]. apply product_available_first. by exists p.
  - intros (Hr & [p Hp]%product_available_first & Hg).
    eexists _, _. by apply (create_reviews_created _ _ _ _ p).
Qed.

(** X10. Delete succeeds exactly when the caller is an admin, the review
    exists and is active, and the product it names has a row; the product
    need not be active. *)
Theorem delete_reviews_succeeds_iff review_id current_user db :
  (∃ db' m, delete_reviews review_id current_user db = (db', Return m))
  ↔ UserModel.role current_user = "admin"
    ∧ ∃ c, reviews db !! review_id = Some c
           ∧ ReviewModel.is_active c = true
           ∧ is_Some (products db !! ReviewModel.product_id c).
Proof.
  split.
  - intros (db' & m & Hrun).
    apply delete_reviews_Return in Hrun as (c & p & q & Hr & Hc & Ha & Hp & _).
    split; [done|]. exists c. by rewrite Hp.
  - intros (Hr & c & Hc & Ha & [p Hp]).
    eexists _, _. by apply (delete_reviews_deleted _ _ _ c p).
Qed.

(** X11. When an admin deletes an active review whose product has no row,
    the handler fails with AttributeError after the soft delete is
    committed: the review is left inactive, the products are untouched,
    the store is not the one before, and the same request again is
    answered NotFound. *)
Theorem delete_reviews_crash_keeps_soft_delete review_id current_user db c :
  UserModel.role current_user = "admin" →
  reviews db !! review_id = Some c →
  ReviewModel.is_active c = true →
  products db !! ReviewModel.product_id c = None →
  ∃ db',
    delete_reviews review_id current_user db = (db', Raise AttributeError)
    ∧ reviews db' !! review_id = Some (ReviewModel.set_is_active false c)
    ∧ (∀ k, k ≠ review_id → reviews db' !! k = reviews db !! k)
    ∧ products db' = products db
    ∧ db' ≠ db
    ∧ delete_reviews review_id current_user db' = (db', Raise NotFound).
Proof.
  intros Hr Hc Ha Hp. exists (update_review_inactive review_id db).
  split; [by apply (delete_reviews_no_product _ _ _ c)|].
  assert (reviews (update_review_inactive review_id db) !! review_id
          = Some (ReviewModel.set_is_active false c)) as Hoff.
  { rewrite (reviews_deactivated _ _ _ _ Hc). by rewrite decide_True. }
  split; [exact Hoff|]. split.
  { intros k Hk. simpl. by rewrite lookup_alter_ne. }
  split; [done|]. split.
  - intros Heq. rewrite Heq, Hc in Hoff. injection Hoff as Hoff.
    rewrite Hoff in Ha. discriminate.
  - apply delete_reviews_not_found; [done|].
    apply first_active_review_after_update.
Qed.

(** ** Writes seen through the listings *)

Lemma get_all_reviews_elem db :
  ∃ l, get_all_reviews db = (db, Return l)
       ∧ ∀ r : ReviewModel.t,
           r ∈ l ↔ reviews db !! ReviewModel.id r = Some r.2
                   ∧ ReviewModel.is_active r.2 = true.
Proof.
  eexists. split; [apply get_all_reviews_eq|].
  intros [k c]. unfold all, select_reviews.
  rewrite elem_of_map_to_list, map_lookup_filter_Some, bool_decide_eq_true.
  reflexivity.
Qed.

Lemma get_reviews_by_product_elem product_id db p :
  first_active_product product_id db = Some p →
  ∃ l, get_reviews_by_product product_id db = (db, Return l)
       ∧ ∀ r : ReviewModel.t,
           r ∈ l ↔ reviews db !! ReviewModel.id r = Some r.2
                   ∧ ReviewModel.product_id r.2 = product_id
                   ∧ ReviewModel.is_active r.2 = true.
Proof.
  intros Hp. eexists. split; [by apply (get_reviews_by_product_found _ _ p)|].
  intros r.
  rewrite order_by_comment_date_desc_perm, all_select_reviews.
  apply elem_of_active_reviews_of.
Qed.

(** X12. After a successful create, both listings run on the new store
    contain the returned review; in particular the listing for its product
    does not fail. *)
Theorem create_reviews_then_listed review current_user now db db' r :
  create_reviews review current_user now db = (db', Return r) →
  (∃ l, get_all_reviews db' = (db', Return l) ∧ r ∈ l)
  ∧ (∃ l, get_reviews_by_product (ReviewCreate.product_id review) db'
          = (db', Return l) ∧ r ∈ l).
Proof.
  intros Hrun.
  destruct (create_reviews_cases review current_user now db)
    as [[_ E]|[(_ & _ & E)|[(_ & _ & _ & E)|(p & _ & Hp & _ & E)]]];
    rewrite E in Hrun; try discriminate.
  injection Hrun as <- <-.
  apply first_active_product_Some in Hp as [Hp Ha].
  set (db' := store_rating _ _ _ _).
  assert (reviews db' !! next_review_id db
          = Some (created review current_user now)) as Hnew
    by (simpl; apply lookup_insert_eq).
  split.
  - destruct (get_all_reviews_elem db') as (l & El & Hl).
    exists l. split; [done|]. by apply Hl.
  - assert (first_active_product (ReviewCreate.product_id review) db'
            = Some (ProductModel.set_rating
                      (or_zero (scalar_avg_grade (ReviewCreate.product_id review)
                                  (inserted review current_user now db))) p))
      as Hp'.
    { apply first_active_product_Some. split; [|done].
      simpl. apply lookup_insert_eq. }
    destruct (get_reviews_by_product_elem _ _ _ Hp') as (l & El & Hl).
    exists l. split; [done|]. by apply Hl.
Qed.

(** X13. After a successful delete, each listing run on the new store
    returns what it returned before without the deleted review: the list
    of all reviews, and the list of any product whose listing succeeded
    before. *)
Theorem delete_reviews_then_unlisted review_id current_user db db' m :
  delete_reviews review_id current_user db = (db', Return m) →
  (∃ l l', get_all_reviews db = (db, Return l)
           ∧ get_all_reviews db' = (db', Return l')
           ∧ ∀ r : ReviewModel.t,
               r ∈ l' ↔ r ∈ l ∧ ReviewModel.id r ≠ review_id)
  ∧ (∀ product_id l,
       get_reviews_by_product product_id db = (db, Return l) →
       ∃ l', get_reviews_by_product product_id db' = (db', Return l')
             ∧ ∀ r : ReviewModel.t,
                 r ∈ l' ↔ r ∈ l ∧ ReviewModel.id r ≠ review_id).
Proof.
  intros Hrun.
  apply delete_reviews_Return in Hrun as (c & p & q & _ & Hc & Ha & Hp & ->).
  set (db' := store_rating _ _ _ _).
  assert (∀ r : ReviewModel.t,
            reviews db' !! ReviewModel.id r = Some r.2
            ∧ ReviewModel.is_active r.2 = true
            ↔ (reviews db !! ReviewModel.id r = Some r.2
               ∧ ReviewModel.is_active r.2 = true)
              ∧ ReviewModel.id r ≠ review_id) as Hrows.
  { intros [k c']. simpl.
    destruct (decide (k = review_id)) as [->|Hne].
    - rewrite lookup_alter_eq, Hc. simpl. split; [|tauto].
      intros [[= <-] Hact]. discriminate.
    - rewrite lookup_alter_ne by done. tauto. }
  split.
  - destruct (get_all_reviews_elem db) as (l & El & Hl).
    destruct (get_all_reviews_elem db') as (l' & El' & Hl').
    exists l, l'. split; [done|]. split; [done|].
    intros r. rewrite Hl', Hl. apply Hrows.
  - intros pid l Hrun.
    destruct (first_active_product pid db) as [p0|] eqn:Hf;
      [|by rewrite (get_reviews_by_product_not_found _ _ Hf) in Hrun].
    destruct (get_reviews_by_product_elem _ _ _ Hf) as (l0 & El & Hl).
    rewrite El in Hrun. injection Hrun as ->.
    assert (is_Some (first_active_product pid db')) as [p1 Hf'].
    { apply first_active_product_Some in Hf as [Hf Hact].
      destruct (decide (pid = ReviewModel.product_id c)) as [->|Hne].
      - exists (ProductModel.set_rating q p).
        apply first_active_product_Some. split.
        + simpl. apply lookup_insert_eq.
        + rewrite Hf in Hp. by injection Hp as <-.
      - exists p0. apply first_active_product_Some. split; [|done].
        simpl. by rewrite lookup_insert_ne. }
    destruct (get_reviews_by_product_elem _ _ _ Hf') as (l' & El' & Hl').
    exists l'. split; [done|].
    intros r. rewrite Hl', Hl.
    specialize (Hrows r). tauto.
Qed.

(** ** Edge cases of the listings *)

(** X14. For an existing active product none of whose reviews is active,
    the listing by product succeeds with the empty list; it is not a
    NotFound. *)
Theorem get_reviews_by_product_empty product_id db :
  product_available product_id db →
  (∀ k c, reviews db !! k = Some c →
          ReviewModel.product_id c = product_id →
          ReviewModel.is_active c = false) →
  get_reviews_by_product product_id db = (db, Return []).
Proof.
  intros [p Hp]%product_available_first Hnone.
  destruct (get_reviews_by_product_elem _ _ _ Hp) as (l & El & Hl).
  rewrite El. f_equal. f_equal. apply elem_of_nil_inv.
  intros [k c] (Hk & Hpid & Ha)%Hl. simpl in *.
  rewrite (Hnone k c Hk Hpid) in Ha. discriminate.
Qed.

(** X15. Every review the listing by product returns is also returned by
    the listing of all reviews. *)
Theorem get_reviews_by_product_within_all product_id db db' l :
  get_reviews_by_product product_id db = (db', Return l) →
  ∃ l_all, get_all_reviews db = (db, Return l_all) ∧ l ⊆ l_all.
Proof.
  intros Hrun.
  destruct (first_active_product product_id db) as [p|] eqn:Hf;
    [|by rewrite (get_reviews_by_product_not_found _ _ Hf) in Hrun].
  destruct (get_reviews_by_product_elem _ _ _ Hf) as (l0 & El & Hl).
  rewrite El in Hrun. injection Hrun as _ ->.
  destruct (get_all_reviews_elem db) as (l_all & Eall & Hall).
  exists l_all. split; [done|].
  intros r (Hk & _ & Ha)%Hl. by apply Hall.
Qed.

(** X16. The listing of all reviews does not look at products: an active
    review of a product that is missing or inactive is returned by it,
    while the listing for that product is answered NotFound. *)
Theorem get_all_reviews_ignores_products db k c :
  reviews db !! k = Some c →
  ReviewModel.is_active c = true →
  product_missing_or_inactive (ReviewModel.product_id c) db →
  (∃ l, get_all_reviews db = (db, Return l) ∧ (k, c) ∈ l)
  ∧ get_reviews_by_product (ReviewModel.product_id c) db = (db, Raise NotFound).
Proof.
  intros Hk Ha Hp. split.
  - destruct (get_all_reviews_elem db) as (l & El & Hl).
    exists l. split; [done|]. by apply Hl.
  - apply get_reviews_by_product_not_found.
    by apply first_active_product_None.
Qed.

(** ** The further properties on the concrete stores *)

Lemma shop0_to_shop1 : write_called shop0 shop1.
Proof.
  left. exists (ReviewCreate.Make 7 "fine" 4), buyer_a, 100.
  eexists. vm_compute. reflexivity.
Defined.

Lemma shop1_to_shop2 : write_called shop1 shop2.
Proof.
  left. exists (ReviewCreate.Make 7 "so-so" 2), buyer_b, 200.
  eexists. vm_compute. reflexivity.
Defined.

Lemma shop2_to_shop3 : write_called shop2 shop3.
Proof.
  right. exists 1, admin_c. eexists. vm_compute. reflexivity.
Defined.

Lemma shop0_grades_in_range : grades_in_range shop0.
Proof.
  intros k c Hk. unfold shop0 in Hk. simpl in Hk.
  rewrite lookup_empty in Hk. discriminate.
Defined.

Lemma reviews_kept_never_revived_witness :
  ∃ c', reviews shop3 !! 1 = Some c'
        ∧ (c' = ReviewModel.Columns "fine" 4 1 7 100 true
           ∨ (ReviewModel.is_active (ReviewModel.Columns "fine" 4 1 7 100 true)
              = true
              ∧ c' = ReviewModel.set_is_active false
                       (ReviewModel.Columns "fine" 4 1 7 100 true)))
        ∧ same_content (ReviewModel.Columns "fine" 4 1 7 100 true) c'
        ∧ (ReviewModel.is_active (ReviewModel.Columns "fine" 4 1 7 100 true)
           = false → ReviewModel.is_active c' = false).
Proof.
  apply (reviews_kept_never_revived shop2 shop3 1
           (ReviewModel.Columns "fine" 4 1 7 100 true) shop2_to_shop3).
  vm_compute. reflexivity.
Defined.

Lemma products_only_rated_witness :
  ProductModel.is_active <$> products shop3 !! 7
  = ProductModel.is_active <$> products shop2 !! 7.
Proof.
  exact (products_only_rated shop2 shop3 7 shop2_to_shop3).
Defined.

Lemma grades_stay_in_range_witness : grades_in_range shop3.
Proof.
  apply (grades_stay_in_range shop0 shop3).
  - apply (rtc_l _ _ shop1); [exact shop0_to_shop1|].
    apply (rtc_l _ _ shop2); [exact shop1_to_shop2|].
    apply (rtc_l _ _ shop3); [exact shop2_to_shop3|].
    apply rtc_refl.
  - exact shop0_grades_in_range.
Defined.

Lemma rating_within_grades_witness :
  ∃ p, products shop1 !! 7 = Some p
       ∧ ((active_reviews_of 7 shop1 = [] ∧ (ProductModel.rating p == 0)%Q)
          ∨ (active_reviews_of 7 shop1 ≠ []
             ∧ (1 <= ProductModel.rating p <= 5)%Q)).
Proof.
  apply (rating_within_grades 7 shop0 shop1).
  - eapply (create_succeeds 7 shop0 shop1 (ReviewCreate.Make 7 "fine" 4)
              buyer_a 100);
      [vm_compute; reflexivity | reflexivity].
  - exact shop0_grades_in_range.
Defined.

Lemma create_reviews_adds_one_witness :
  products shop_thirds !! 7
  = Some (ProductModel.Columns true (Float.Make 7505999378950827 (-52)))
  ∧ grades_of 7 shop_pair = [2; 1]
  ∧ active_reviews_of 7 shop_thirds
    ≡ₚ (3, ReviewModel.Columns "again" 2 2 7 300 true)
       :: active_reviews_of 7 shop_pair
  ∧ ∃ p, products shop_thirds !! 7 = Some p
         ∧ is_mean (ProductModel.rating p) (2 :: grades_of 7 shop_pair).
Proof.
  split; [vm_compute; reflexivity|]. split; [vm_compute; reflexivity|].
  apply (create_reviews_adds_one (ReviewCreate.Make 7 "again" 2) buyer_b 300
           shop_pair shop_thirds
           (3, ReviewModel.Columns "again" 2 2 7 300 true)).
  vm_compute. reflexivity.
Defined.

Lemma delete_reviews_removes_one_witness :
  active_reviews_of 7 shop2
  ≡ₚ (1, ReviewModel.Columns "fine" 4 1 7 100 true) :: active_reviews_of 7 shop3.
Proof.
  apply (delete_reviews_removes_one 1 admin_c shop2 shop3 review_deleted
           (ReviewModel.Columns "fine" 4 1 7 100 true)).
  - vm_compute. reflexivity.
  - vm_compute. reflexivity.
Defined.

Lemma first_review_sets_rating_witness :
  ∃ db' r p,
    create_reviews (ReviewCreate.Make 7 "fine" 4) buyer_a 100 shop0
    = (db', Return r)
    ∧ products db' !! 7 = Some p
    ∧ (ProductModel.rating p == inject_Z 4)%Q.
Proof.
  apply (first_review_sets_rating (ReviewCreate.Make 7 "fine" 4) buyer_a 100 shop0).
  - reflexivity.
  - exact shop0_product_available.
  - unfold grade_in_range. simpl. lia.
  - vm_compute. reflexivity.
Defined.

Lemma last_review_resets_rating_witness :
  ∃ p, products (delete_reviews 1 admin_c shop1).1 !! 7 = Some p
       ∧ (ProductModel.rating p == 0)%Q.
Proof.
  apply (last_review_resets_rating 1 admin_c shop1
           (delete_reviews 1 admin_c shop1).1 review_deleted
           (ReviewModel.Columns "fine" 4 1 7 100 true)).
  - vm_compute. reflexivity.
  - vm_compute. reflexivity.
  - vm_compute. reflexivity.
Defined.

Lemma create_reviews_succeeds_iff_witness :
  (∃ db' r, create_reviews (ReviewCreate.Make 7 "fine" 4) buyer_a 100 shop0
            = (db', Return r))
  ∧ ¬ (∃ db' r, create_reviews (ReviewCreate.Make 9 "x" 4) buyer_a 100 shop_closed
                = (db', Return r)).
Proof.
  split.
  - apply (proj2 (create_reviews_succeeds_iff
                    (ReviewCreate.Make 7 "fine" 4) buyer_a 100 shop0)).
    split; [reflexivity|]. split; [exact shop0_product_available|].
    unfold grade_in_range. simpl. lia.
  - intros H.
    apply (proj1 (create_reviews_succeeds_iff
                    (ReviewCreate.Make 9 "x" 4) buyer_a 100 shop_closed)) in H.
    destruct H as (_ & (p & Hp & Ha) & _).
    vm_compute in Hp. injection Hp as <-. discriminate Ha.
Defined.

Lemma delete_reviews_succeeds_iff_witness :
  (∃ db' m, delete_reviews 1 admin_c shop_retired = (db', Return m))
  ∧ ¬ (∃ db' m, delete_reviews 1 admin_c shop_orphan = (db', Return m)).
Proof.
  split.
  - apply (proj2 (delete_reviews_succeeds_iff 1 admin_c shop_retired)).
    split; [reflexivity|].
    exists (ReviewModel.Columns "old" 5 1 9 50 true).
    split; [vm_compute; reflexivity|]. split; [reflexivity|].
    exists (ProductModel.Columns false (Float.Make 5 0)). vm_compute. reflexivity.
  - intros H.
    apply (proj1 (delete_reviews_succeeds_iff 1 admin_c shop_orphan)) in H.
    destruct H as (_ & c & Hc & _ & [p Hp]).
    vm_compute in Hc. injection Hc as <-.
    vm_compute in Hp. discriminate Hp.
Defined.

Lemma delete_reviews_crash_keeps_soft_delete_witness :
  ∃ db',
    delete_reviews 1 admin_c shop_orphan = (db', Raise AttributeError)
    ∧ reviews db' !! 1
      = Some (ReviewModel.set_is_active false
                (ReviewModel.Columns "lost" 3 1 4 50 true))
    ∧ (∀ k, k ≠ 1 → reviews db' !! k = reviews shop_orphan !! k)
    ∧ products db' = products shop_orphan
    ∧ db' ≠ shop_orphan
    ∧ delete_reviews 1 admin_c db' = (db', Raise NotFound).
Proof.
  apply (delete_reviews_crash_keeps_soft_delete 1 admin_c shop_orphan
           (ReviewModel.Columns "lost" 3 1 4 50 true)).
  - reflexivity.
  - vm_compute. reflexivity.
  - reflexivity.
  - vm_compute. reflexivity.
Defined.

Lemma create_reviews_then_listed_witness :
  (∃ l, get_all_reviews shop1 = (shop1, Return l)
        ∧ (1, ReviewModel.Columns "fine" 4 1 7 100 true) ∈ l)
  ∧ (∃ l, get_reviews_by_product 7 shop1 = (shop1, Return l)
          ∧ (1, ReviewModel.Columns "fine" 4 1 7 100 true) ∈ l).
Proof.
  apply (create_reviews_then_listed (ReviewCreate.Make 7 "fine" 4) buyer_a 100
           shop0 shop1 (1, ReviewModel.Columns "fine" 4 1 7 100 true)).
  vm_compute. reflexivity.
Defined.

Lemma delete_reviews_then_unlisted_witness :
  (∃ l l', get_all_reviews shop2 = (shop2, Return l)
           ∧ get_all_reviews shop3 = (shop3, Return l')
           ∧ ∀ r : ReviewModel.t, r ∈ l' ↔ r ∈ l ∧ ReviewModel.id r ≠ 1)
  ∧ (∀ product_id l,
       get_reviews_by_product product_id shop2 = (shop2, Return l) →
       ∃ l', get_reviews_by_product product_id shop3 = (shop3, Return l')
             ∧ ∀ r : ReviewModel.t, r ∈ l' ↔ r ∈ l ∧ ReviewModel.id r ≠ 1).
Proof.
  apply (delete_reviews_then_unlisted 1 admin_c shop2 shop3 review_deleted).
  vm_compute. reflexivity.
Defined.

Lemma get_reviews_by_product_empty_witness :
  get_reviews_by_product 7 shop0 = (shop0, Return []).
Proof.
  apply (get_reviews_by_product_empty 7 shop0 shop0_product_available).
  intros k c Hk. unfold shop0 in Hk. simpl in Hk.
  rewrite lookup_empty in Hk. discriminate.
Defined.

Lemma get_reviews_by_product_within_all_witness :
  ∃ l_all, get_all_reviews shop2 = (shop2, Return l_all)
           ∧ [(2, ReviewModel.Columns "so-so" 2 2 7 200 true);
              (1, ReviewModel.Columns "fine" 4 1 7 100 true)] ⊆ l_all.
Proof.
  apply (get_reviews_by_product_within_all 7 shop2 shop2).
  vm_compute. reflexivity.
Defined.

Lemma get_all_reviews_ignores_products_witness :
  (∃ l, get_all_reviews shop_retired = (shop_retired, Return l)
        ∧ (1, ReviewModel.Columns "old" 5 1 9 50 true) ∈ l)
  ∧ get_reviews_by_product 9 shop_retired = (shop_retired, Raise NotFound).
Proof.
  apply (get_all_reviews_ignores_products shop_retired 1
           (ReviewModel.Columns "old" 5 1 9 50 true)).
  - vm_compute. reflexivity.
  - reflexivity.
  - right. exists (ProductModel.Columns false (Float.Make 5 0)).
    split; [vm_compute; reflexivity | reflexivity].
Defined.
